(** * lvsfunc.denoise: composition contract of [quick_denoise] and [detail_mask]

    A shallow embedding of [lvsfunc/denoise.py].  The module builds lazy
    VapourSynth filter graphs, so a clip is modelled by the term of filter
    calls that describes it ([node]); Python exceptions are the [Err] side of
    a result type; the keyword map [**kwargs] is a [gmap string pyval].

    Modelling conventions
    - [str] is a sequence of code points below 256 (Rocq's [string]);
      [str.lower] is Python's mapping restricted to that range.
    - A [float] value is written as a rational; where the module computes
      with it, it is the IEEE 754 binary64 number that the rational denotes,
      and the arithmetic is that of binary64, taken from the executable
      specification [SpecFloat] of the Standard Library.
    - Calls into plugins ([core.*], mvsfunc, havsfunc, debandshit) only
      record the call as a constructor of [node]; what a plugin does with its
      arguments is outside the module.
    - The helpers of [vsutil] are modelled with the checks and early returns
      that decide what the module does: [get_y] refuses a clip without a
      luma plane, [depth] and [scale_value] return their argument when there
      is nothing to convert. *)

From Stdlib Require Import ZArith QArith Qround String Ascii List Bool Lia.
From Stdlib Require Import SpecFloat.
From stdpp Require Import gmap strings list fin_maps.

Local Open Scope Z_scope.
Local Open Scope string_scope.

(** ** Python values and exceptions *)

(** The Python objects that reach the two functions as scalars or as values
    of the open configuration map. *)
Inductive pyval : Type :=
  | PNone
  | PInt (z : Z)
  | PFloat (q : Q)
  | PStr (s : string).

(** Why the interpreter refused an operation.  The text of these messages
    names the callee and varies with the interpreter, so the cause is kept
    instead of the text. *)
Inductive type_error : Type :=
  | MultipleValues (keyword : string)
  | UnsupportedOperand (operand_type : string).

(** Exceptions raised by the module or by the interpreter on its behalf. *)
Inductive exn : Type :=
  | ModuleNotFoundError (msg : string)
  | ValueError (msg : string)
  | AttributeError (msg : string)
  | TypeError (why : type_error)
  | OverflowError (msg : string)
  | IndexError (msg : string).

Inductive result (A : Type) : Type :=
  | Ok (a : A)
  | Err (e : exn).
Arguments Ok {A} a.
Arguments Err {A} e.

Definition bind {A B : Type} (r : result A) (k : A -> result B) : result B :=
  match r with
  | Ok a => k a
  | Err e => Err e
  end.

Notation "'let*' x ':=' r 'in' k" := (bind r (fun x => k))
  (at level 10, x name, r at level 100, k at level 200).
Notation "'do*' r 'in' k" := (bind r (fun _ => k))
  (at level 10, r at level 100, k at level 200).

(** [bool(v)] for the scalar types above. *)
Definition truthy (v : pyval) : bool :=
  match v with
  | PNone => false
  | PInt z => negb (Z.eqb z 0)
  | PFloat q => negb (Qeq_bool q 0)
  | PStr s => negb (String.eqb s "")
  end.

(** [isinstance(v, float)] and [isinstance(v, int)]. *)
Definition is_float (v : pyval) : bool :=
  match v with PFloat _ => true | _ => false end.
Definition is_int (v : pyval) : bool :=
  match v with PInt _ => true | _ => false end.

(** [v == w] between scalars of the kinds compared in [quick_denoise]:
    a [str] never equals an [int]. *)
Definition py_eqb (v w : pyval) : bool :=
  match v, w with
  | PNone, PNone => true
  | PInt a, PInt b => Z.eqb a b
  | PFloat a, PFloat b => Qeq_bool a b
  | PInt a, PFloat b => Qeq_bool (inject_Z a) b
  | PFloat a, PInt b => Qeq_bool a (inject_Z b)
  | PStr a, PStr b => String.eqb a b
  | _, _ => false
  end.

(** [v in l] for a list literal [l]. *)
Definition py_in (v : pyval) (l : list pyval) : bool :=
  existsb (py_eqb v) l.

(** *** [str.lower] *)

Definition lower_code (n : N) : N :=
  if ((65 <=? n) && (n <=? 90))%N then (n + 32)%N
  else if ((192 <=? n) && (n <=? 222) && negb (n =? 215))%N then (n + 32)%N
  else n.

Definition lower_char (c : ascii) : ascii :=
  ascii_of_N (lower_code (N_of_ascii c)).

Fixpoint lower (s : string) : string :=
  match s with
  | EmptyString => EmptyString
  | String c s' => String (lower_char c) (lower s')
  end.

(** [cmode.lower()]: only [str] has the method. *)
Definition py_lower (v : pyval) : result pyval :=
  match v with
  | PStr s => Ok (PStr (lower s))
  | PInt _ => Err (AttributeError "'int' object has no attribute 'lower'")
  | PFloat _ => Err (AttributeError "'float' object has no attribute 'lower'")
  | PNone => Err (AttributeError "'NoneType' object has no attribute 'lower'")
  end.

(** *** [float] arithmetic: binary64 *)

(** The float nearest to an integer (ties to even; infinite past the largest
    float). *)
Definition b64_of_Z (z : Z) : spec_float := binary_normalize 53 1024 z 0 false.

(** The float that a rational stands for: the quotient, in binary64, of its
    numerator and denominator.  A decimal literal such as 0.75 is read this
    way. *)
Definition b64_of_Q (q : Q) : spec_float :=
  SFdiv 53 1024 (b64_of_Z (Qnum q)) (b64_of_Z (Zpos (Qden q))).

Definition b64_mul : spec_float -> spec_float -> spec_float := SFmul 53 1024.

Definition msg_int_too_large : string := "int too large to convert to float".
Definition msg_float_infinity : string := "cannot convert float infinity to integer".
Definition msg_float_nan : string := "cannot convert float NaN to integer".

(** The conversion of an [int] operand of a float operation: it raises past
    the largest float. *)
Definition py_float_of_int (z : Z) : result spec_float :=
  match b64_of_Z z with
  | S754_infinity _ => Err (OverflowError msg_int_too_large)
  | x => Ok x
  end.

(** [int(x)] on a float: truncation toward zero; infinities and NaN have no
    integer. *)
Definition py_int_of_float (x : spec_float) : result Z :=
  match x with
  | S754_zero _ => Ok 0%Z
  | S754_finite s m e =>
      Ok (cond_Zopp s
            (if Z.leb 0 e then (Zpos m * 2 ^ e)%Z else (Zpos m / 2 ^ (- e))%Z))
  | S754_infinity _ => Err (OverflowError msg_float_infinity)
  | S754_nan => Err (ValueError msg_float_nan)
  end.

(** [v * f] for a float [f]. *)
Definition py_mul_float (v : pyval) (f : spec_float) : result spec_float :=
  match v with
  | PInt z => let* x := py_float_of_int z in Ok (b64_mul x f)
  | PFloat q => Ok (b64_mul (b64_of_Q q) f)
  | PStr _ => Err (TypeError (UnsupportedOperand "str"))
  | PNone => Err (TypeError (UnsupportedOperand "NoneType"))
  end.

(** *** Keyword arguments

    [f(k1=v1, ..., **kwargs)]: the interpreter refuses a keyword that is
    given both explicitly and through the map. *)
Fixpoint call_kwargs (fixed : list (string * pyval)) (kwargs : gmap string pyval)
  : result (gmap string pyval) :=
  match fixed with
  | [] => Ok kwargs
  | (k, v) :: rest =>
      match kwargs !! k with
      | Some _ => Err (TypeError (MultipleValues k))
      | None =>
          let* m := call_kwargs rest kwargs in
          Ok (<[k := v]> m)
      end
  end.

(** [planes[i]] and [planes[i] = x] on a Python list. *)
Definition getitem {A : Type} (l : list A) (i : nat) : result A :=
  match l !! i with
  | Some x => Ok x
  | None => Err (IndexError "list index out of range")
  end.

Definition setitem {A : Type} (l : list A) (i : nat) (x : A) : result (list A) :=
  if (i <? length l)%nat then Ok (<[i := x]> l)
  else Err (IndexError "list assignment index out of range").

(** ** VapourSynth clips *)

Inductive ColorFamily : Type := GRAY | RGB | YUV | YCOCG | COMPAT.

Definition ColorFamily_eqb (a b : ColorFamily) : bool :=
  match a, b with
  | GRAY, GRAY | RGB, RGB | YUV, YUV | YCOCG, YCOCG | COMPAT, COMPAT => true
  | _, _ => false
  end.

Inductive SampleType : Type := INTEGER | FLOAT.

Definition SampleType_eqb (a b : SampleType) : bool :=
  match a, b with
  | INTEGER, INTEGER | FLOAT, FLOAT => true
  | _, _ => false
  end.

(** The attributes of [clip.format] that the module and its helpers read. *)
Record VideoFormat : Type := {
  color_family : ColorFamily;
  sample_type : SampleType;
  bits_per_sample : Z
}.

(** [format.num_planes] is fixed by the colour family. *)
Definition num_planes (f : VideoFormat) : nat :=
  match color_family f with
  | GRAY | COMPAT => 1%nat
  | RGB | YUV | YCOCG => 3%nat
  end.

(** A clip as the caller hands it over: an opaque handle whose [format] is
    [None] for a variable-format clip. *)
Record VideoNode : Type := {
  name : string;
  format : option VideoFormat
}.

(** A binarisation threshold: a Python number as given, or the value that
    [vsutil.scale_value] computes from it between two different depths. *)
Inductive threshold : Type :=
  | Thr (v : pyval)
  | ScaleValue (v : pyval) (input_depth output_depth : Z).

(** A callable handed to [util.quick_resample]. *)
Inductive clip_filter : Type :=
  | BilateralGaussian (sigma : pyval).

(** The filter graph.  Every constructor but [Input] is one call into a
    plugin or helper whose body lies outside [denoise.py]; [Depth] is the
    format conversion that [vsutil.depth] asks of the resizer. *)
#[warnings="-register-all"] Inductive node : Type :=
  | Input (c : VideoNode)
  | Plane (c : node) (planeno : nat)
  | GetY (c : node)
  | Depth (c : node) (bitdepth : Z)
  | ShufflePlanes (clips : list node) (planes : list Z) (colorfamily : ColorFamily)
  | KNLMeansCL (c : node) (args : gmap string pyval)
  | TNLMeans (c : node) (args : gmap string pyval)
  | DFTTest (c : node) (args : gmap string pyval)
  | SMDegrain (c : node) (args : gmap string pyval)
  | BM3D (c : node) (sigma : pyval) (psample radius1 : Z) (ref : node)
  | PlaneStats (c : node)
  | AdgMask (c : node) (luma_scaling : pyval)
  | QuickResample (c : node) (function : clip_filter)
  | RangeMask (c : node) (rad radc : Z)
  | Prewitt (c : node)
  | Binarize (c : node) (thr : threshold)
  | StdExpr (clips : list node) (expr : string)
  | PickedRemoveGrain (picked_for c : node) (mode : Z).

(** *** util (sibling module of [denoise.py]) *)

(** Modelled from the spec: [util.quick_resample] is not among the sources;
    the spec only says it applies the given Gaussian-family blur to the
    clip, so the call is recorded as such. *)
Definition quick_resample : node -> clip_filter -> node := QuickResample.

(** Modelled from the spec: the blurred frame stands in for the frame in
    everything that follows, so it is taken to have the format of the clip
    that was blurred. *)
Definition quick_resample_format (input : option VideoFormat) : option VideoFormat :=
  input.

(** Modelled from the spec: [util.pick_removegrain] is not among the
    sources; the spec describes it as a depth-dependent picker of the
    smoothing filter, so [pick_removegrain(m)(c, mode)] records the clip the
    filter was picked for, the clip it is applied to and the mode. *)
Definition pick_removegrain (m : node) : node -> Z -> node := PickedRemoveGrain m.

(** *** vsutil *)

(** [vsutil.get_depth(clip)]. *)
Definition get_depth (f : VideoFormat) : Z := bits_per_sample f.

(** The sample type that [vsutil.depth] converts to when none is asked for. *)
Definition default_sample_type (bitdepth : Z) : SampleType :=
  if Z.eqb bitdepth 32 then FLOAT else INTEGER.

(** The format of the clips that [detail_mask] hands to [get_y] and [depth]:
    the input has its own format, an extracted plane is GRAY with the
    samples of its clip, a conversion changes depth and sample type, and the
    range mask returns the format it was given.  Other nodes are not
    tracked. *)
Fixpoint node_format (n : node) : option VideoFormat :=
  match n with
  | Input c => format c
  | Plane c _ | GetY c =>
      match node_format c with
      | Some f =>
          Some {| color_family := GRAY; sample_type := sample_type f;
                  bits_per_sample := bits_per_sample f |}
      | None => None
      end
  | Depth c bitdepth =>
      match node_format c with
      | Some f =>
          Some {| color_family := color_family f;
                  sample_type := default_sample_type bitdepth;
                  bits_per_sample := bitdepth |}
      | None => None
      end
  | QuickResample c _ => quick_resample_format (node_format c)
  | RangeMask c _ _ => node_format c
  | _ => None
  end.

Definition msg_luma : string := "The clip must have a luma plane.".

(** The colour families with a luma plane. *)
Definition has_luma (f : VideoFormat) : bool :=
  existsb (ColorFamily_eqb (color_family f)) [YUV; YCOCG; GRAY].

(** [vsutil.get_y(clip)]: the first plane of a YUV, YCOCG or GRAY clip; any
    other clip is refused. *)
Definition get_y (c : node) : result node :=
  match node_format c with
  | Some f => if has_luma f then Ok (GetY c) else Err (ValueError msg_luma)
  | None => Err (ValueError msg_luma)
  end.

(** [vsutil.depth(clip, bitdepth)]: the clip itself when it already has the
    depth and the sample type asked for, a conversion otherwise. *)
Definition depth (c : node) (bitdepth : Z) : node :=
  match node_format c with
  | Some f =>
      if Z.eqb (bits_per_sample f) bitdepth
         && SampleType_eqb (sample_type f) (default_sample_type bitdepth)
      then c
      else Depth c bitdepth
  | None => Depth c bitdepth
  end.

(** [vsutil.scale_value(value, input_depth, output_depth)]: the value itself
    when the two depths agree, a rescaled value otherwise. *)
Definition scale_value (value : pyval) (input_depth output_depth : Z) : threshold :=
  if Z.eqb input_depth output_depth then Thr value
  else ScaleValue value input_depth output_depth.

(** [vsutil.split(clip)]: one single-plane clip per plane of the format. *)
Definition split (c : node) (f : VideoFormat) : list node :=
  map (Plane c) (seq 0 (num_planes f)).

(** [vsutil.join(planes, family=vs.YUV)]; [quick_denoise] relies on the
    default for [family]. *)
Definition join_default_family : ColorFamily := YUV.

Definition join (planes : list node) : node :=
  ShufflePlanes planes [0; 0; 0] join_default_family.

(** ** The interpreter's environment: which optional modules import *)

Record Env : Type := {
  has_mvsfunc : bool;
  has_havsfunc : bool;
  has_debandshit : bool
}.

(** [try: import m / except ModuleNotFoundError: raise ModuleNotFoundError(msg)] *)
Definition import_or (available : bool) (msg : string) : result unit :=
  if available then Ok tt else Err (ModuleNotFoundError msg).

(** ** Messages of [denoise.py] *)

Definition dquote : string := String (ascii_of_nat 34) EmptyString.

Definition msg_mvsfunc : string := "quick_denoise: missing dependency 'mvsfunc'".
Definition msg_havsfunc : string := "quick_denoise: missing dependency 'havsfunc'".
Definition msg_family : string :=
  "quick_denoise: input clip must be vs.YUV, vs.YCOCG, or vs.RGB".
Definition msg_sbsize : string :=
  "quick_denoise: '" ++ dquote ++ "sbsize" ++ dquote ++ " not specified'".
Definition msg_cmode : string := "quick_denoise: 'Unknown cmode'".
Definition msg_debandshit : string := "detail_mask: missing dependency 'debandshit'".
Definition msg_variable : string := "detail_mask: 'Variable-format clips not supported'".

(** The spec's error taxonomy, as the exceptions the code raises. *)
Definition DependencyMissingError (msg : string) : exn := ModuleNotFoundError msg.
Definition FormatError (msg : string) : exn := ValueError msg.
Definition MissingParameterError : exn := ValueError msg_sbsize.
Definition UnknownModeError : exn := ValueError msg_cmode.

(** ** [quick_denoise] *)

(** [clip.format is None or clip.format.color_family not in (YUV, YCOCG, RGB)] *)
Definition bad_family (o : option VideoFormat) : bool :=
  match o with
  | None => true
  | Some f => negb (existsb (ColorFamily_eqb (color_family f)) [YUV; YCOCG; RGB])
  end.

(** One chroma plane through a plugin: [planes[i] = F(planes[i], fixed, **kwargs)]. *)
Definition filter_plane (F : node -> gmap string pyval -> node)
    (fixed : list (string * pyval)) (kwargs : gmap string pyval)
    (planes : list node) (i : nat) : result (list node) :=
  let* p := getitem planes i in
  let* args := call_kwargs fixed kwargs in
  setitem planes i (F p args).

(** [int(sbsize * 0.75)], the value given to [sosize] (lines 78 and 79). *)
Definition dft_sosize (sbsize : pyval) : result Z :=
  let* p := py_mul_float sbsize (b64_of_Q 0.75%Q) in
  py_int_of_float p.

(** Lines 58-95.  [planes] is the list that the source updates in place;
    [ref or planes[0]] takes the given reference whenever there is one (a
    clip has at least one frame, so it is truthy). *)
Definition quick_denoise (env : Env) (clip : VideoNode) (ref : option node)
    (cmode : pyval) (sigma : pyval) (kwargs : gmap string pyval) : result node :=
  do* import_or (has_mvsfunc env) msg_mvsfunc in
  if bad_family (format clip) then Err (ValueError msg_family) else
  let planes :=
    match format clip with
    | Some f => split (Input clip) f
    | None => []
    end in
  let* cmode := py_lower cmode in
  let* planes :=
    if py_in cmode [PInt 1; PStr "knlm"; PStr "knlmeanscl"] then
      let fixed := [("d", PInt 3); ("a", PInt 2)] in
      let* planes := filter_plane KNLMeansCL fixed kwargs planes 1 in
      filter_plane KNLMeansCL fixed kwargs planes 2
    else if py_in cmode [PInt 2; PStr "tnlm"; PStr "tnlmeans"] then
      let fixed := [("ax", PInt 2); ("ay", PInt 2); ("az", PInt 2)] in
      let* planes := filter_plane TNLMeans fixed kwargs planes 1 in
      filter_plane TNLMeans fixed kwargs planes 2
    else if py_in cmode [PInt 3; PStr "dft"; PStr "dfttest"] then
      match kwargs !! "sbsize" with
      | None => Err (ValueError msg_sbsize)
      | Some sbsize =>
          let* sosize := dft_sosize sbsize in
          let* planes :=
            filter_plane DFTTest [("sosize", PInt sosize)] kwargs planes 1 in
          let* sosize := dft_sosize sbsize in
          filter_plane DFTTest [("sosize", PInt sosize)] kwargs planes 2
      end
    else if py_in cmode [PInt 4; PStr "smd"; PStr "smdegrain"] then
      do* import_or (has_havsfunc env) msg_havsfunc in
      let fixed := [("prefilter", PInt 3)] in
      let* planes := filter_plane SMDegrain fixed kwargs planes 1 in
      filter_plane SMDegrain fixed kwargs planes 2
    else Err (ValueError msg_cmode) in
  let* ref := match ref with Some r => Ok r | None => getitem planes 0 end in
  let* luma := getitem planes 0 in
  let* planes := setitem planes 0 (BM3D luma sigma 0 1 ref) in
  Ok (join planes).

(** ** [adaptive_mask] *)

Definition adaptive_mask (clip : node) (luma_scaling : pyval) : node :=
  AdgMask (PlaneStats clip) luma_scaling.

(** ** [detail_mask] *)

(** The merge expression handed to [core.std.Expr]. *)
Definition merge_expr : string := "x y max".

(** Lines 149-158: threshold rescaling by clip depth and value type. *)
Definition rescale_thresholds (f : VideoFormat) (brz_a brz_b : pyval)
  : threshold * threshold :=
  if negb (get_depth f =? 32)%Z then
    (if is_float brz_a then scale_value brz_a 32 (get_depth f) else Thr brz_a,
     if is_float brz_b then scale_value brz_b 32 (get_depth f) else Thr brz_b)
  else
    (if is_int brz_a then scale_value brz_a (get_depth f) 32 else Thr brz_a,
     if is_int brz_b then scale_value brz_b (get_depth f) 32 else Thr brz_b).

(** Lines 161-162 and 163-164: the two working copies. *)
Definition den_a (clip : VideoNode) (sigma : pyval) : node :=
  if truthy sigma
  then quick_resample (Input clip) (BilateralGaussian sigma)
  else Input clip.

Definition den_b (clip : VideoNode) (sigma : pyval) : node :=
  if truthy sigma
  then quick_resample (Input clip) (BilateralGaussian sigma)
  else Input clip.

(** Lines 166-169: detector A. *)
Definition mask_a (f : VideoFormat) (den_a : node) (rad radc : Z)
    (brz_a : threshold) : result node :=
  let* mask_a :=
    if (bits_per_sample f <? 32)%Z
    then (let* y := get_y den_a in Ok (depth y 16))
    else get_y den_a in
  let mask_a := RangeMask mask_a rad radc in
  let mask_a := depth mask_a (bits_per_sample f) in
  Ok (Binarize mask_a brz_a).

(** Lines 171-172: detector B. *)
Definition mask_b (den_b : node) (brz_b : threshold) : result node :=
  let* y := get_y den_b in
  let mask_b := Prewitt y in
  Ok (Binarize mask_b brz_b).

(** Line 174: the merge step. *)
Definition merge (mask_a mask_b : node) : node :=
  StdExpr [mask_a; mask_b] merge_expr.

(** Lines 139-176. *)
Definition detail_mask (env : Env) (clip : VideoNode) (sigma : pyval)
    (rad radc : Z) (brz_a brz_b : pyval) : result node :=
  do* import_or (has_debandshit env) msg_debandshit in
  match format clip with
  | None => Err (ValueError msg_variable)
  | Some f =>
      let '(brz_a, brz_b) := rescale_thresholds f brz_a brz_b in
      let den_a := den_a clip sigma in
      let den_b := den_b clip sigma in
      let* mask_a := mask_a f den_a rad radc brz_a in
      let* mask_b := mask_b den_b brz_b in
      let mask := merge mask_a mask_b in
      let mask := pick_removegrain mask mask 22 in
      Ok (pick_removegrain mask mask 11)
  end.

(** ** Pixel semantics of [core.std.Expr]

    [std.Expr] evaluates a reverse-Polish expression once per pixel: the
    tokens are separated by spaces, [x], [y] and [z] load the pixel of the
    first, second and third input clip, a binary operator replaces the two
    topmost stack entries, and exactly one value must remain.  The value
    is clamped to the range of the output format on store.  An empty
    expression copies the first clip.  A single-plane clip is the list of
    its samples in scan order. *)

Inductive token : Type :=
  | TLoad (i : nat)
  | TAdd | TSub | TMul | TMax | TMin.

Definition parse_token (s : string) : option token :=
  if String.eqb s "x" then Some (TLoad 0)
  else if String.eqb s "y" then Some (TLoad 1)
  else if String.eqb s "z" then Some (TLoad 2)
  else if String.eqb s "+" then Some TAdd
  else if String.eqb s "-" then Some TSub
  else if String.eqb s "*" then Some TMul
  else if String.eqb s "max" then Some TMax
  else if String.eqb s "min" then Some TMin
  else None.

Definition space : ascii := ascii_of_nat 32.

(** Split an expression at spaces; [cur] is the token read so far, reversed. *)
Fixpoint words (cur : string) (s : string) : list string :=
  match s with
  | EmptyString =>
      match cur with EmptyString => [] | _ => [String.rev cur] end
  | String c s' =>
      if Ascii.eqb c space then
        match cur with
        | EmptyString => words EmptyString s'
        | _ => String.rev cur :: words EmptyString s'
        end
      else words (String c cur) s'
  end.

Fixpoint parse_tokens (ws : list string) : option (list token) :=
  match ws with
  | [] => Some []
  | w :: ws' =>
      match parse_token w, parse_tokens ws' with
      | Some t, Some ts => Some (t :: ts)
      | _, _ => None
      end
  end.

Definition binop (t : token) : option (Z -> Z -> Z) :=
  match t with
  | TAdd => Some Z.add
  | TSub => Some Z.sub
  | TMul => Some Z.mul
  | TMax => Some Z.max
  | TMin => Some Z.min
  | _ => None
  end.

(** The stack machine; [px] are the samples of the input clips at the
    current pixel. *)
Fixpoint run (ts : list token) (px : list Z) (stack : list Z) : option Z :=
  match ts with
  | [] => match stack with [v] => Some v | _ => None end
  | TLoad i :: ts' =>
      match px !! i with
      | Some v => run ts' px (v :: stack)
      | None => None
      end
  | t :: ts' =>
      match binop t, stack with
      | Some f, b :: a :: stack' => run ts' px (f a b :: stack')
      | _, _ => None
      end
  end.

Definition clamp (peak v : Z) : Z := Z.max 0 (Z.min peak v).

(** Samples of all input clips at pixel [p]; [None] if a clip is shorter. *)
Fixpoint pixel_at (clips : list (list Z)) (p : nat) : option (list Z) :=
  match clips with
  | [] => Some []
  | c :: cs =>
      match c !! p, pixel_at cs p with
      | Some v, Some vs => Some (v :: vs)
      | _, _ => None
      end
  end.

Fixpoint eval_pixels (ts : list token) (peak : Z) (clips : list (list Z))
    (ps : list nat) : option (list Z) :=
  match ps with
  | [] => Some []
  | p :: ps' =>
      match pixel_at clips p with
      | Some px =>
          match run ts px [], eval_pixels ts peak clips ps' with
          | Some v, Some vs => Some (clamp peak v :: vs)
          | _, _ => None
          end
      | None => None
      end
  end.

(** [core.std.Expr(clips, expr)] on single-plane clips whose samples range
    over 0..[peak]; the clips must agree in size. *)
Definition Expr (peak : Z) (clips : list (list Z)) (expr : string)
  : option (list Z) :=
  match clips with
  | [] => None
  | first :: _ =>
      if forallb (fun c => (length c =? length first)%nat) clips then
        if String.eqb expr EmptyString then Some first
        else
          match parse_tokens (words EmptyString expr) with
          | Some ts => eval_pixels ts peak clips (seq 0 (length first))
          | None => None
          end
      else None
  end.

(** The samples of every clip of a list, if each has some. *)
Fixpoint all_samples (sem : node -> option (list Z)) (clips : list node)
  : option (list (list Z)) :=
  match clips with
  | [] => Some []
  | c :: cs =>
      match sem c, all_samples sem cs with
      | Some x, Some xs => Some (x :: xs)
      | _, _ => None
      end
  end.

(** The samples of a node of the graph, given by [sem] the samples of the
    clips it is built from: a [core.std.Expr] node is evaluated by [Expr] on
    the samples of its inputs, with the expression it carries; any other
    node has the samples [sem] gives it. *)
Definition denote (peak : Z) (sem : node -> option (list Z)) (n : node)
  : option (list Z) :=
  match n with
  | StdExpr clips expr =>
      match all_samples sem clips with
      | Some planes => Expr peak planes expr
      | None => None
      end
  | _ => sem n
  end.

(** A binarised mask holds only the two levels 0 and [peak]
    ([std.Binarize] with its default [v0] and [v1]). *)
Definition binarized (peak : Z) (m : list Z) : Prop :=
  Forall (fun v => v = 0 \/ v = peak) m.

(** ** The spec's vocabulary *)

(** The four chroma filter families of the spec. *)
Inductive family : Type := KNLM | TNLM | DFT | SMD.

(** The documented alias table, in the order of the dispatch. *)
Definition aliases : list (family * list string) :=
  [ (KNLM, ["knlm"; "knlmeanscl"]);
    (TNLM, ["tnlm"; "tnlmeans"]);
    (DFT, ["dft"; "dfttest"]);
    (SMD, ["smd"; "smdegrain"]) ].

Definition is_upper (n : N) : bool := ((65 <=? n) && (n <=? 90))%N.

(** Two characters that differ at most by the case of an ASCII letter. *)
Definition same_letter (a b : ascii) : bool :=
  let x := N_of_ascii a in
  let y := N_of_ascii b in
  ((x =? y) || (is_upper x && (x + 32 =? y)) || (is_upper y && (y + 32 =? x)))%N.

(** Case-insensitive comparison of strings. *)
Fixpoint eq_nocase (s t : string) : bool :=
  match s, t with
  | EmptyString, EmptyString => true
  | String a s', String b t' => same_letter a b && eq_nocase s' t'
  | _, _ => false
  end.

(** Strings made of the letters a-z only, as every documented alias is. *)
Definition lowercase_letters (t : string) : Prop :=
  forall c, In c (list_ascii_of_string t) ->
    (97 <= N_of_ascii c <= 122)%N.

(** The family the spec documents for a mode string, if any. *)
Definition documented_family (s : string) : option family :=
  match find (fun e => existsb (eq_nocase s) (snd e)) aliases with
  | Some e => Some (fst e)
  | None => None
  end.

(** Which family's plugin produced a plane. *)
Definition filter_family (n : node) : option family :=
  match n with
  | KNLMeansCL _ _ => Some KNLM
  | TNLMeans _ _ => Some TNLM
  | DFTTest _ _ => Some DFT
  | SMDegrain _ _ => Some SMD
  | _ => None
  end.

(** The families that filtered the two chroma planes of a rejoined clip. *)
Definition chroma_families (out : node) : option (option family * option family) :=
  match out with
  | ShufflePlanes [_; u; v] _ _ => Some (filter_family u, filter_family v)
  | _ => None
  end.

(** Colour family of a clip, where the graph determines it: an input has
    the family of its format, [ShufflePlanes] the family it was given, and
    extracted planes are GRAY. *)
Definition node_color_family (n : node) : option ColorFamily :=
  match n with
  | Input c =>
      match format c with Some f => Some (color_family f) | None => None end
  | ShufflePlanes _ _ fam => Some fam
  | Plane _ _ | GetY _ => Some GRAY
  | _ => None
  end.

(** The two detector outputs that [detail_mask] merges, read off its result. *)
Definition detectors (out : node) : option (node * node) :=
  match out with
  | PickedRemoveGrain _ (PickedRemoveGrain _ (StdExpr [a; b] _) _) _ => Some (a, b)
  | _ => None
  end.

(** The clip that the two smoothing passes of [detail_mask] are applied to. *)
Definition merged (out : node) : option node :=
  match out with
  | PickedRemoveGrain _ (PickedRemoveGrain _ m _) _ => Some m
  | _ => None
  end.

(** The threshold a detector output was binarised at. *)
Definition binarize_threshold (n : node) : option threshold :=
  match n with
  | Binarize _ t => Some t
  | _ => None
  end.



(** The output of a successful [quick_denoise] on input node [c]. *)
Definition rejoined (c : node) (ref : option node) (sigma : pyval)
    (u v : node) : node :=
  ShufflePlanes
    [BM3D (Plane c 0) sigma 0 1 (default (Plane c 0) ref); u; v]
    [0; 0; 0] join_default_family.

(** One dispatch branch, run to completion: both chroma planes through the
    plugin [F] with the branch's fixed keywords, then luma and rejoin. *)
Definition branch (F : node -> gmap string pyval -> node)
    (fixed : list (string * pyval)) (kwargs : gmap string pyval)
    (c : node) (ref : option node) (sigma : pyval) : result node :=
  let* args := call_kwargs fixed kwargs in
  Ok (rejoined c ref sigma (F (Plane c 1) args) (F (Plane c 2) args)).

(** The dispatch of [quick_denoise] as the spec tabulates it, once the
    dependency and format checks have passed. *)
Definition dispatch_table (env : Env) (c : node) (ref : option node) (s : string)
    (sigma : pyval) (kwargs : gmap string pyval) : result node :=
  match documented_family s with
  | Some KNLM =>
      branch KNLMeansCL [("d", PInt 3); ("a", PInt 2)] kwargs c ref sigma
  | Some TNLM =>
      branch TNLMeans [("ax", PInt 2); ("ay", PInt 2); ("az", PInt 2)]
        kwargs c ref sigma
  | Some DFT =>
      match kwargs !! "sbsize" with
      | None => Err MissingParameterError
      | Some sbsize =>
          let* sosize := dft_sosize sbsize in
          branch DFTTest [("sosize", PInt sosize)] kwargs c ref sigma
      end
  | Some SMD =>
      do* import_or (has_havsfunc env) msg_havsfunc in
      branch SMDegrain [("prefilter", PInt 3)] kwargs c ref sigma
  | None => Err UnknownModeError
  end.

(** A mode value that the spec documents as the DFT mode. *)
Definition dft_mode (cmode : pyval) : Prop :=
  exists s, cmode = PStr s /\ documented_family s = Some DFT.

(** ** Sample inputs *)

Definition env_all : Env :=
  {| has_mvsfunc := true; has_havsfunc := true; has_debandshit := true |}.
Definition env_no_mvsfunc : Env :=
  {| has_mvsfunc := false; has_havsfunc := true; has_debandshit := true |}.
Definition env_no_havsfunc : Env :=
  {| has_mvsfunc := true; has_havsfunc := false; has_debandshit := true |}.
Definition env_no_debandshit : Env :=
  {| has_mvsfunc := true; has_havsfunc := true; has_debandshit := false |}.

(** The format of a family and depth with the usual samples: float at 32
    bits, integer below. *)
Definition mk_format (fam : ColorFamily) (bits : Z) : VideoFormat :=
  {| color_family := fam; sample_type := default_sample_type bits;
     bits_per_sample := bits |}.

Definition mk_clip (fam : ColorFamily) (bits : Z) : VideoNode :=
  {| name := "src"; format := Some (mk_format fam bits) |}.

Definition yuv8 : VideoNode := mk_clip YUV 8.
Definition yuv32 : VideoNode := mk_clip YUV 32.
Definition rgb8 : VideoNode := mk_clip RGB 8.
Definition gray8 : VideoNode := mk_clip GRAY 8.
Definition variable_clip : VideoNode := {| name := "src"; format := None |}.

(** Samples for the two detector outputs of a graph: the binarised range
    mask has the samples [A], the binarised edge mask the samples [B]. *)
Definition two_masks (A B : list Z) (n : node) : option (list Z) :=
  match n with
  | Binarize (Prewitt _) _ => Some B
  | Binarize _ _ => Some A
  | _ => None
  end.

(** ** Further vocabulary for the dispatch and the masks *)

(** The plugin that a family's branch calls on each chroma plane. *)
Definition plugin (F : family) : node -> gmap string pyval -> node :=
  match F with
  | KNLM => KNLMeansCL
  | TNLM => TNLMeans
  | DFT => DFTTest
  | SMD => SMDegrain
  end.

(** The keywords that a family's branch passes by name (lines 70-89). *)
Definition fixed_keys (F : family) : list string :=
  match F with
  | KNLM => ["d"; "a"]
  | TNLM => ["ax"; "ay"; "az"]
  | DFT => ["sosize"]
  | SMD => ["prefilter"]
  end.

(** What a branch does before it touches a plane: the DFT branch reads
    'sbsize' and derives 'sosize', the SMD branch imports havsfunc. *)
Definition branch_keywords (F : family) (env : Env) (kwargs : gmap string pyval)
  : result (list (string * pyval)) :=
  match F with
  | KNLM => Ok [("d", PInt 3); ("a", PInt 2)]
  | TNLM => Ok [("ax", PInt 2); ("ay", PInt 2); ("az", PInt 2)]
  | DFT =>
      match kwargs !! "sbsize" with
      | None => Err MissingParameterError
      | Some sbsize =>
          let* sosize := dft_sosize sbsize in
          Ok [("sosize", PInt sosize)]
      end
  | SMD =>
      do* import_or (has_havsfunc env) msg_havsfunc in
      Ok [("prefilter", PInt 3)]
  end.

(** The two chroma planes of a rejoined clip. *)
Definition chroma_planes (out : node) : option (node * node) :=
  match out with
  | ShufflePlanes [_; u; v] _ _ => Some (u, v)
  | _ => None
  end.

(** A mask whose samples lie in the range of its format. *)
Definition in_range (peak : Z) (m : list Z) : Prop :=
  Forall (fun v => (0 <= v <= peak)%Z) m.

(** The binary64 number 3/4: mantissa 3 * 2^51, exponent -53. *)
Definition three_quarters : spec_float :=
  S754_finite false 6755399441055744 (-53).

(** * Proofs *)

(** ** [str.lower] against case-insensitive comparison *)

Lemma lower_code_bounded (n : N) : (n < 256)%N -> (lower_code n < 256)%N.
Proof.
  intros Hn. unfold lower_code.
  destruct ((65 <=? n) && (n <=? 90))%N eqn:Hup.
  - apply andb_true_iff in Hup as [_ H]. apply N.leb_le in H. lia.
  - destruct ((192 <=? n) && (n <=? 222) && negb (n =? 215))%N eqn:Hlat; [|exact Hn].
    apply andb_true_iff in Hlat as [H _].
    apply andb_true_iff in H as [_ H]. apply N.leb_le in H. lia.
Qed.

Lemma ascii_eqb_code (n : N) (d : ascii) :
  (n < 256)%N -> Ascii.eqb (ascii_of_N n) d = (n =? N_of_ascii d)%N.
Proof.
  intros Hn.
  destruct (Ascii.eqb_spec (ascii_of_N n) d) as [E|E].
  - subst d. rewrite N_ascii_embedding by exact Hn. symmetry. apply N.eqb_refl.
  - symmetry. apply N.eqb_neq. intros ->. apply E. apply ascii_N_embedding.
Qed.

Lemma lower_char_same_letter (c d : ascii) :
  (97 <= N_of_ascii d <= 122)%N ->
  Ascii.eqb (lower_char c) d = same_letter c d.
Proof.
  intros Hd. unfold lower_char, same_letter.
  pose proof (N_ascii_bounded c) as Hc.
  rewrite ascii_eqb_code by (apply lower_code_bounded; exact Hc).
  unfold lower_code, is_upper.
  set (x := N_of_ascii c) in *. set (y := N_of_ascii d) in *.
  destruct (N.leb_spec 65 x), (N.leb_spec x 90), (N.leb_spec 192 x),
    (N.leb_spec x 222), (N.eqb_spec x 215), (N.leb_spec 65 y),
    (N.leb_spec y 90); cbn [andb orb negb];
    repeat match goal with
      | |- context [N.eqb ?a ?b] => destruct (N.eqb_spec a b)
      end; cbn [andb orb negb]; try reflexivity; lia.
Qed.

Lemma lower_eq_nocase (t s : string) :
  lowercase_letters t -> String.eqb (lower s) t = eq_nocase s t.
Proof.
  revert s. induction t as [|d t IH]; intros s Ht.
  - destruct s; reflexivity.
  - destruct s as [|c s]; [reflexivity|].
    cbn [lower eq_nocase String.eqb].
    rewrite lower_char_same_letter by (apply Ht; left; reflexivity).
    destruct (same_letter c d); [|reflexivity].
    apply IH. intros e He. apply Ht. right. exact He.
Qed.

(** ** Binary64: [int(S * 0.75)] is exact while [3 * |S|] stays below 2^53 *)

Lemma digits2_size (p : positive) : digits2_pos p = Pos.size p.
Proof. induction p; simpl; congruence. Qed.

Lemma digits2_bounds (p : positive) :
  2 ^ (Zpos (digits2_pos p) - 1) <= Zpos p < 2 ^ Zpos (digits2_pos p).
Proof.
  rewrite digits2_size.
  pose proof (Pos.size_gt p) as Hgt. pose proof (Pos.size_le p) as Hle.
  apply Pos2Z.pos_lt_pos in Hgt. apply Pos2Z.pos_le_pos in Hle.
  rewrite Pos2Z.inj_pow in Hgt, Hle.
  split; [|exact Hgt].
  replace (Zpos (Pos.size p)) with (Z.succ (Zpos (Pos.size p) - 1)) in Hle by lia.
  rewrite Z.pow_succ_r in Hle by lia. lia.
Qed.

Lemma digits2_unique (p : positive) (d : Z) :
  2 ^ (d - 1) <= Zpos p < 2 ^ d -> Zpos (digits2_pos p) = d.
Proof.
  intros [Hlo Hhi]. pose proof (digits2_bounds p) as [Blo Bhi].
  set (D := Zpos (digits2_pos p)) in *.
  destruct (Z.lt_trichotomy D d) as [Hlt|[Heq|Hgt]]; [exfalso|exact Heq|exfalso].
  - assert (2 ^ D <= 2 ^ (d - 1)) by (apply Z.pow_le_mono_r; lia). lia.
  - assert (0 <= d).
    { destruct (Z.le_gt_cases 0 d) as [Hd|Hd]; [exact Hd|].
      rewrite (Z.pow_neg_r 2 d) in Hhi by lia. lia. }
    assert (2 ^ d <= 2 ^ (D - 1)) by (apply Z.pow_le_mono_r; lia). lia.
Qed.

Lemma iter_xO_pow (p k : positive) :
  Zpos (Pos.iter xO p k) = Zpos p * 2 ^ Zpos k.
Proof.
  rewrite (Pos.iter_swap_gen _ _ Zpos xO (Z.mul 2)) by reflexivity.
  change (Pos.iter (Z.mul 2) (Zpos p) k) with (Z.shiftl (Zpos p) (Zpos k)).
  apply Z.shiftl_mul_pow2. lia.
Qed.

Lemma shr_exact (k x : positive) :
  SpecFloat.iter_pos shr_1 k
    {| shr_m := Zpos (Pos.iter xO x k); shr_r := false; shr_s := false |}
  = {| shr_m := Zpos x; shr_r := false; shr_s := false |}.
Proof.
  revert x. induction k as [k IH|k IH|]; intros x; cbn [SpecFloat.iter_pos Pos.iter].
  - cbn [shr_1 orb]. rewrite IH, IH. reflexivity.
  - rewrite IH, IH. reflexivity.
  - reflexivity.
Qed.

(** Rounding a mantissa that is a 53-bit number times a power of two only
    drops the zero bits. *)
Lemma binary_round_aux_exact (s : bool) (X x : positive) (k e : Z) :
  Zpos (digits2_pos x) = 53 ->
  0 <= k ->
  Zpos X = Zpos x * 2 ^ k ->
  -1074 <= e + k <= 971 ->
  binary_round_aux 53 1024 s (Zpos X) e loc_Exact = S754_finite s x (e + k).
Proof.
  intros Hx Hk HX He.
  assert (HdX : Zpos (digits2_pos X) = 53 + k).
  { apply digits2_unique. pose proof (digits2_bounds x) as B. rewrite Hx in B.
    rewrite HX. replace (53 + k - 1) with (52 + k) by lia.
    rewrite !Z.pow_add_r by lia. nia. }
  unfold binary_round_aux, shr_fexp. cbn [Zdigits2 shr_record_of_loc].
  rewrite HdX. unfold fexp, emin.
  replace (Z.max (53 + k + e - 53) (3 - 1024 - 53) - e) with k by lia.
  assert (Hshr : shr {| shr_m := Zpos X; shr_r := false; shr_s := false |} e k
                 = ({| shr_m := Zpos x; shr_r := false; shr_s := false |}, e + k)).
  { destruct k as [|p|p]; [| |lia].
    - cbn [shr]. rewrite Z.add_0_r. f_equal. f_equal.
      rewrite Z.pow_0_r, Z.mul_1_r in HX. exact HX.
    - cbn [shr]. rewrite <- iter_xO_pow in HX. injection HX as ->.
      rewrite shr_exact. reflexivity. }
  rewrite Hshr. cbn [shr_m loc_of_shr_record round_nearest_even Zdigits2].
  rewrite Hx.
  replace (Z.max (53 + (e + k) - 53) (3 - 1024 - 53) - (e + k)) with 0 by lia.
  cbn [shr shr_m].
  replace (Z.leb (e + k) (1024 - 53)) with true by (symmetry; apply Z.leb_le; lia).
  reflexivity.
Qed.

Lemma normalize_pos (m : positive) (d : Z) :
  d = Zpos (digits2_pos m) -> d <= 53 ->
  exists mz : positive,
    Zpos mz = Zpos m * 2 ^ (53 - d) /\ Zpos (digits2_pos mz) = 53.
Proof.
  intros Hd Hle. pose proof (digits2_bounds m) as B. rewrite <- Hd in B.
  assert (Hpos : 0 < Zpos m * 2 ^ (53 - d))
    by (apply Z.mul_pos_pos; [lia | apply Z.pow_pos_nonneg; lia]).
  exists (Z.to_pos (Zpos m * 2 ^ (53 - d))).
  rewrite Z2Pos.id by exact Hpos. split; [reflexivity|].
  apply digits2_unique. rewrite Z2Pos.id by exact Hpos.
  assert (E1 : 2 ^ (53 - 1) = 2 ^ (d - 1) * 2 ^ (53 - d))
    by (rewrite <- Z.pow_add_r by lia; f_equal; lia).
  assert (E2 : 2 ^ 53 = 2 ^ d * 2 ^ (53 - d))
    by (rewrite <- Z.pow_add_r by lia; f_equal; lia).
  rewrite E1, E2.
  assert (0 < 2 ^ (53 - d)) by (apply Z.pow_pos_nonneg; lia). nia.
Qed.

(** An integer below 2^53 is a float: its mantissa shifted to 53 bits. *)
Lemma b64_of_pos (s : bool) (m : positive) :
  Zpos m < 2 ^ 53 ->
  exists mz : positive,
    binary_round 53 1024 s m 0 = S754_finite s mz (Zpos (digits2_pos m) - 53) /\
    Zpos mz = Zpos m * 2 ^ (53 - Zpos (digits2_pos m)) /\
    Zpos (digits2_pos mz) = 53.
Proof.
  intros Hm. set (d := Zpos (digits2_pos m)).
  assert (Hd : d <= 53).
  { pose proof (digits2_bounds m) as [Blo _]. fold d in Blo.
    destruct (Z.le_gt_cases d 53) as [H|H]; [exact H|exfalso].
    assert (2 ^ 53 <= 2 ^ (d - 1)) by (apply Z.pow_le_mono_r; lia). lia. }
  destruct (normalize_pos m d eq_refl Hd) as (mz & Hmz & Hdz).
  exists mz. split; [|split; assumption].
  unfold binary_round. fold d.
  assert (Hal : shl_align m 0 (fexp 53 1024 (d + 0)) = (mz, d - 53)).
  { unfold shl_align, fexp, emin.
    replace (Z.max (d + 0 - 53) (3 - 1024 - 53) - 0) with (d - 53) by lia.
    replace (Z.max (d + 0 - 53) (3 - 1024 - 53)) with (d - 53) by lia.
    destruct (d - 53) as [|q|q] eqn:Hq; [| lia |].
    - f_equal. replace (53 - d) with 0 in Hmz by lia.
      rewrite Z.pow_0_r, Z.mul_1_r in Hmz. injection Hmz as ->. reflexivity.
    - f_equal. replace (53 - d) with (Zpos q) in Hmz by lia.
      rewrite <- iter_xO_pow in Hmz. injection Hmz as ->. reflexivity. }
  rewrite Hal.
  rewrite (binary_round_aux_exact s mz mz 0 (d - 53) Hdz); try lia.
  f_equal. lia.
Qed.

Lemma mul_three_quarters (s : bool) (m : positive) :
  3 * Zpos m < 2 ^ 53 ->
  py_int_of_float (b64_mul (binary_round 53 1024 s m 0) three_quarters)
  = Ok (cond_Zopp s (3 * Zpos m / 4)).
Proof.
  intros H3.
  destruct (b64_of_pos s m ltac:(lia)) as (mz & -> & Hmz & Hdz).
  set (d := Zpos (digits2_pos m)) in *.
  set (d3 := Zpos (digits2_pos (3 * m))).
  pose proof (digits2_bounds m) as Bm. fold d in Bm.
  pose proof (digits2_bounds (3 * m)) as B3. fold d3 in B3.
  rewrite Pos2Z.inj_mul in B3.
  assert (Hd : 1 <= d) by (unfold d; lia).
  assert (Hd3 : d + 1 <= d3 <= 53).
  { split.
    - destruct (Z.le_gt_cases (d + 1) d3) as [H|H]; [exact H|exfalso].
      assert (H0 : 2 ^ d3 <= 2 ^ d) by (apply Z.pow_le_mono_r; unfold d3; lia).
      replace d with (Z.succ (d - 1)) in H0 by lia.
      rewrite Z.pow_succ_r in H0 by lia. lia.
    - destruct (Z.le_gt_cases d3 53) as [H|H]; [exact H|exfalso].
      assert (2 ^ 53 <= 2 ^ (d3 - 1)) by (apply Z.pow_le_mono_r; lia). lia. }
  destruct (normalize_pos (3 * m) d3 eq_refl ltac:(lia)) as (x & Hx & Hdx).
  rewrite Pos2Z.inj_mul in Hx.
  unfold b64_mul, three_quarters. cbn [SFmul xorb].
  rewrite xorb_false_r.
  rewrite (binary_round_aux_exact s (mz * 6755399441055744) x (d3 - d + 51)
             (d - 53 + -53) Hdx); try lia.
  - cbn [py_int_of_float].
    replace (Z.leb 0 (d - 53 + -53 + (d3 - d + 51))) with false
      by (symmetry; apply Z.leb_gt; lia).
    f_equal. f_equal. rewrite Hx.
    replace (- (d - 53 + -53 + (d3 - d + 51))) with (2 + (53 - d3)) by lia.
    rewrite Z.pow_add_r by lia. change (2 ^ 2) with 4.
    apply Z.div_mul_cancel_r; [lia|].
    assert (0 < 2 ^ (53 - d3)) by (apply Z.pow_pos_nonneg; lia). lia.
  - rewrite Pos2Z.inj_mul, Hmz, Hx.
    change (Zpos 6755399441055744) with (3 * 2 ^ 51).
    replace (Zpos 3 * Zpos m * 2 ^ (53 - d3) * 2 ^ (d3 - d + 51))
      with (3 * Zpos m * (2 ^ (53 - d3) * 2 ^ (d3 - d + 51))) by ring.
    rewrite <- Z.pow_add_r by lia.
    replace (Zpos m * 2 ^ (53 - d) * (3 * 2 ^ 51))
      with (3 * Zpos m * (2 ^ (53 - d) * 2 ^ 51)) by ring.
    rewrite <- Z.pow_add_r by lia.
    f_equal. f_equal. lia.
Qed.

(** The literal 0.75 is the float 3/4. *)
Lemma three_quarters_literal : b64_of_Q 0.75%Q = three_quarters.
Proof. vm_compute. reflexivity. Qed.

Lemma py_float_of_int_small (S : Z) :
  Z.abs S < 2 ^ 53 -> py_float_of_int S = Ok (b64_of_Z S).
Proof.
  intros HS. unfold py_float_of_int, b64_of_Z.
  destruct S as [|m|m]; cbn [binary_normalize]; [reflexivity| |].
  - destruct (b64_of_pos false m ltac:(lia)) as (mz & -> & _). reflexivity.
  - destruct (b64_of_pos true m ltac:(lia)) as (mz & -> & _). reflexivity.
Qed.

(** While [3 * |S|] is below 2^53, [int(S * 0.75)] is the exact product
    truncated toward zero. *)
Lemma sosize_exact (S : Z) :
  3 * Z.abs S < 2 ^ 53 ->
  dft_sosize (PInt S) = Ok (Z.quot (3 * S) 4).
Proof.
  intros HS. unfold dft_sosize. cbn [py_mul_float].
  rewrite py_float_of_int_small by lia. cbn [bind].
  rewrite three_quarters_literal. unfold b64_of_Z.
  destruct S as [|m|m]; cbn [binary_normalize].
  - reflexivity.
  - rewrite mul_three_quarters by lia. cbn [cond_Zopp].
    rewrite Z.quot_div_nonneg by lia. reflexivity.
  - rewrite mul_three_quarters by lia. cbn [cond_Zopp].
    replace (3 * Zneg m) with (- (3 * Zpos m)) by lia.
    rewrite Z.quot_opp_l by lia. rewrite Z.quot_div_nonneg by lia. reflexivity.
Qed.

Lemma py_int_of_float_error (x : spec_float) (e : exn) :
  py_int_of_float x = Err e ->
  (exists m, e = OverflowError m) \/ e = ValueError msg_float_nan.
Proof.
  destruct x; cbn [py_int_of_float]; intros H;
    first [discriminate H | injection H as <-]; eauto.
Qed.

(** What [int(sbsize * 0.75)] can fail with. *)
Lemma dft_sosize_error (v : pyval) (e : exn) :
  dft_sosize v = Err e ->
  (exists w, e = TypeError w) \/ (exists m, e = OverflowError m) \/
  e = ValueError msg_float_nan.
Proof.
  unfold dft_sosize.
  destruct (py_mul_float v (b64_of_Q 0.75%Q)) as [p|e'] eqn:Hp; cbn [bind].
  - intros H. right. exact (py_int_of_float_error p e H).
  - intros [= <-]. destruct v as [|z|q|s]; cbn [py_mul_float] in Hp.
    + injection Hp as <-. eauto.
    + unfold py_float_of_int in Hp.
      destruct (b64_of_Z z); cbn [bind] in Hp;
        first [discriminate Hp | injection Hp as <-]; eauto.
    + discriminate Hp.
    + injection Hp as <-. eauto.
Qed.

Lemma trunc_is_floor (S : Z) :
  (0 <= S)%Z -> Z.quot (3 * S) 4 = Qfloor (inject_Z S * 0.75%Q).
Proof.
  intros HS. cbn [Qfloor Qmult inject_Z Qnum Qden].
  change (Z.pos (1 * 100)) with (4 * 25)%Z.
  replace (S * 75)%Z with (3 * S * 25)%Z by ring.
  rewrite Z.div_mul_cancel_r by discriminate.
  apply Z.quot_div_nonneg; lia.
Qed.

Lemma quot_three_quarters (S : Z) :
  (1 <= S)%Z ->
  (0 <= Z.quot (3 * S) 4 < S)%Z /\
  (4 * Z.quot (3 * S) 4 <= 3 * S < 4 * Z.quot (3 * S) 4 + 4)%Z.
Proof.
  intros HS. rewrite Z.quot_div_nonneg by lia.
  pose proof (Z.div_mod (3 * S) 4 ltac:(discriminate)) as Hdm.
  pose proof (Z.mod_pos_bound (3 * S) 4 ltac:(reflexivity)) as Hmod.
  lia.
Qed.

(** ** The dispatch of [quick_denoise] *)

Lemma py_in_aliases (s : string) (i : Z) (a b : string) :
  lowercase_letters a -> lowercase_letters b ->
  py_in (PStr (lower s)) [PInt i; PStr a; PStr b] = existsb (eq_nocase s) [a; b].
Proof.
  intros Ha Hb. unfold py_in. cbn [existsb py_eqb].
  rewrite (lower_eq_nocase a s Ha), (lower_eq_nocase b s Hb). reflexivity.
Qed.

Lemma lowercase_letters_dec (t : string) :
  forallb (fun c => (97 <=? N_of_ascii c)%N && (N_of_ascii c <=? 122)%N)
    (list_ascii_of_string t) = true ->
  lowercase_letters t.
Proof.
  intros H c Hc. rewrite forallb_forall in H. specialize (H c Hc).
  apply andb_true_iff in H as [H1 H2].
  apply N.leb_le in H1. apply N.leb_le in H2. lia.
Qed.

#[local] Ltac letters := apply lowercase_letters_dec; reflexivity.

Lemma split_three (c : node) (f : VideoFormat) :
  bad_family (Some f) = false ->
  split c f = [Plane c 0; Plane c 1; Plane c 2].
Proof.
  unfold bad_family, split, num_planes.
  destruct (color_family f); cbn; intros H; first [discriminate H | reflexivity].
Qed.

Lemma filter_both (F : node -> gmap string pyval -> node)
    (fixed : list (string * pyval)) (kwargs : gmap string pyval)
    (p0 p1 p2 : node) :
  (let* planes := filter_plane F fixed kwargs [p0; p1; p2] 1 in
   filter_plane F fixed kwargs planes 2)
  = (let* args := call_kwargs fixed kwargs in Ok [p0; F p1 args; F p2 args]).
Proof.
  unfold filter_plane. cbn.
  destruct (call_kwargs fixed kwargs) as [args|e]; reflexivity.
Qed.

Lemma luma_and_join (ref : option node) (sigma : pyval) (c u v : node) :
  (let* ref := match ref with Some r => Ok r | None => getitem [Plane c 0; u; v] 0 end in
   let* luma := getitem [Plane c 0; u; v] 0 in
   let* planes := setitem [Plane c 0; u; v] 0 (BM3D luma sigma 0 1 ref) in
   Ok (join planes))
  = Ok (rejoined c ref sigma u v).
Proof. destruct ref; reflexivity. Qed.

(** The source's chain of list tests and in-place plane updates computes
    the spec's table. *)
Lemma quick_denoise_dispatch (env : Env) (clip : VideoNode) (f : VideoFormat)
    (ref : option node) (s : string) (sigma : pyval) (kwargs : gmap string pyval) :
  has_mvsfunc env = true ->
  format clip = Some f ->
  bad_family (Some f) = false ->
  quick_denoise env clip ref (PStr s) sigma kwargs
  = dispatch_table env (Input clip) ref s sigma kwargs.
Proof.
  intros Hm Hf Hfam. unfold quick_denoise.
  rewrite Hm, Hf, Hfam, (split_three _ _ Hfam).
  cbn [import_or bind py_lower].
  rewrite !py_in_aliases by letters.
  unfold dispatch_table, documented_family, aliases. cbn [find snd fst].
  set (c := Input clip).
  destruct (existsb (eq_nocase s) ["knlm"; "knlmeanscl"]).
  { rewrite filter_both. unfold branch.
    destruct (call_kwargs _ kwargs); cbn [bind]; [apply luma_and_join|reflexivity]. }
  destruct (existsb (eq_nocase s) ["tnlm"; "tnlmeans"]).
  { rewrite filter_both. unfold branch.
    destruct (call_kwargs _ kwargs); cbn [bind]; [apply luma_and_join|reflexivity]. }
  destruct (existsb (eq_nocase s) ["dft"; "dfttest"]).
  { destruct (kwargs !! "sbsize") as [sb|]; [|reflexivity].
    destruct (dft_sosize sb) as [so|e]; [|reflexivity].
    cbn [bind]. rewrite filter_both. unfold branch.
    destruct (call_kwargs _ kwargs); cbn [bind]; [apply luma_and_join|reflexivity]. }
  destruct (existsb (eq_nocase s) ["smd"; "smdegrain"]).
  { destruct (has_havsfunc env); [|reflexivity].
    cbn [import_or bind]. rewrite filter_both. unfold branch.
    destruct (call_kwargs _ kwargs); cbn [bind]; [apply luma_and_join|reflexivity]. }
  reflexivity.
Qed.

Lemma call_kwargs_error (fixed : list (string * pyval))
    (kwargs : gmap string pyval) (e : exn) :
  call_kwargs fixed kwargs = Err e -> exists w, e = TypeError w.
Proof.
  induction fixed as [|[k v] rest IH]; cbn; [discriminate|].
  destruct (kwargs !! k).
  - intros [= <-]. eauto.
  - destruct (call_kwargs rest kwargs); cbn; [discriminate|].
    intros [= <-]. apply IH. reflexivity.
Qed.

Lemma branch_outcome (F : node -> gmap string pyval -> node)
    (fixed : list (string * pyval)) (kwargs : gmap string pyval)
    (c : node) (ref : option node) (sigma : pyval) :
  (exists w, branch F fixed kwargs c ref sigma = Err (TypeError w)) \/
  (exists args, call_kwargs fixed kwargs = Ok args /\
     branch F fixed kwargs c ref sigma
     = Ok (rejoined c ref sigma (F (Plane c 1) args) (F (Plane c 2) args))).
Proof.
  unfold branch. destruct (call_kwargs fixed kwargs) as [args|e] eqn:E; cbn.
  - right. eauto.
  - left. destruct (call_kwargs_error _ _ _ E) as [w ->]. eauto.
Qed.

(** What a call that got past both checks with a string mode can end in:
    a rejoined clip whose chroma planes come from the documented family's
    plugin, or an error that tells which. *)
Lemma dispatch_table_outcome (env : Env) (c : node) (ref : option node)
    (s : string) (sigma : pyval) (kwargs : gmap string pyval) :
  match documented_family s with
  | Some F =>
      match dispatch_table env c ref s sigma kwargs with
      | Ok out =>
          chroma_families out = Some (Some F, Some F) /\
          exists u v, out = rejoined c ref sigma u v
      | Err e =>
          (exists w, e = TypeError w) \/
          (exists m, e = OverflowError m) \/
          e = ValueError msg_float_nan \/
          (F = DFT /\ kwargs !! "sbsize" = None /\ e = MissingParameterError) \/
          (F = SMD /\ has_havsfunc env = false /\ e = DependencyMissingError msg_havsfunc)
      end
  | None => dispatch_table env c ref s sigma kwargs = Err UnknownModeError
  end.
Proof.
  unfold dispatch_table.
  destruct (documented_family s) as [[| | |]|]; [| | | |reflexivity].
  - destruct (branch_outcome KNLMeansCL [("d", PInt 3); ("a", PInt 2)] kwargs c ref sigma)
      as [[m ->]|[args [_ ->]]]; [eauto|]. split; [reflexivity|eauto].
  - destruct (branch_outcome TNLMeans [("ax", PInt 2); ("ay", PInt 2); ("az", PInt 2)]
                kwargs c ref sigma)
      as [[m ->]|[args [_ ->]]]; [eauto|]. split; [reflexivity|eauto].
  - destruct (kwargs !! "sbsize") as [sb|] eqn:Hsb; [|do 3 right; left; auto].
    destruct (dft_sosize sb) as [so|e] eqn:Hp; cbn [bind].
    + destruct (branch_outcome DFTTest [("sosize", PInt so)] kwargs c ref sigma)
        as [[m ->]|[args [_ ->]]]; [eauto|]. split; [reflexivity|eauto].
    + destruct (dft_sosize_error sb e Hp) as [Ht|[Ho|Hn]]; auto.
  - destruct (has_havsfunc env) eqn:Hh; cbn [import_or bind]; [|do 4 right; auto].
    destruct (branch_outcome SMDegrain [("prefilter", PInt 3)] kwargs c ref sigma)
      as [[m ->]|[args [_ ->]]]; [eauto|]. split; [reflexivity|eauto].
Qed.

Lemma nan_not_missing_parameter : ValueError msg_float_nan <> MissingParameterError.
Proof. intros H. vm_compute in H. discriminate H. Qed.

Lemma nan_not_unknown_mode : ValueError msg_float_nan <> UnknownModeError.
Proof. intros H. vm_compute in H. discriminate H. Qed.

Lemma missing_parameter_not_unknown_mode : MissingParameterError <> UnknownModeError.
Proof. intros H. vm_compute in H. discriminate H. Qed.

(** C1 (the code at the failing input): with every dependency present and a
    YUV clip, none of the legacy integer aliases 1, 2, 3, 4 selects a filter
    family, and the unsupported value 7 is not reported as an unknown mode:
    every integer mode stops at [cmode.lower()] with an AttributeError,
    although the membership test of line 69 would accept the integer 1. *)
Theorem quick_denoise_integer_alias :
  (forall i : Z, In i [1; 2; 3; 4; 7]%Z ->
     quick_denoise env_all yuv8 None (PInt i) (PInt 2) {["sbsize" := PInt 16]}
     = Err (AttributeError "'int' object has no attribute 'lower'")) /\
  (forall out,
     quick_denoise env_all yuv8 None (PInt 1) (PInt 2) ∅ <> Ok out) /\
  quick_denoise env_all yuv8 None (PInt 7) (PInt 2) ∅ <> Err UnknownModeError /\
  py_in (PInt 1) [PInt 1; PStr "knlm"; PStr "knlmeanscl"] = true.
Proof.
  split; [intros i Hi; reflexivity|].
  split; [intros out; discriminate|].
  split; [discriminate | reflexivity].
Qed.

(** ** The DFT branch *)

Lemma good_family_format (clip : VideoNode) :
  bad_family (format clip) = false ->
  exists f, format clip = Some f /\ bad_family (Some f) = false.
Proof.
  destruct (format clip) as [f|]; [eauto | discriminate].
Qed.

Lemma quick_denoise_early (env : Env) (clip : VideoNode) (ref : option node)
    (cmode sigma : pyval) (kwargs : gmap string pyval) :
  (has_mvsfunc env = false ->
   quick_denoise env clip ref cmode sigma kwargs
   = Err (ModuleNotFoundError msg_mvsfunc)) /\
  (has_mvsfunc env = true -> bad_family (format clip) = true ->
   quick_denoise env clip ref cmode sigma kwargs = Err (ValueError msg_family)) /\
  (has_mvsfunc env = true -> bad_family (format clip) = false ->
   (forall s, cmode <> PStr s) ->
   exists m, quick_denoise env clip ref cmode sigma kwargs = Err (AttributeError m)).
Proof.
  unfold quick_denoise. repeat split.
  - intros ->. reflexivity.
  - intros -> ->. reflexivity.
  - intros -> -> Hs. cbn [import_or bind].
    destruct cmode as [|z|q|s]; cbn [py_lower bind];
      [eexists; reflexivity .. | destruct (Hs s); reflexivity].
Qed.

(** C3 (amended): the call fails with MissingParameterError exactly when
    the dependency and format checks pass, the mode is a DFT alias and the
    configuration map has no 'sbsize'.  When those checks pass, the mode is
    a DFT alias, 'sbsize' is an integer S with 3 * |S| below 2^53 and the map
    has no 'sosize' of its own, both chroma planes go to DFTTest with the
    map extended by sosize = int(S * 0.75), which is the exact product
    truncated toward zero, and that is floor(S * 0.75) whenever S is not
    negative. *)
Theorem quick_denoise_dft (env : Env) (clip : VideoNode) (ref : option node)
    (cmode sigma : pyval) (kwargs : gmap string pyval) :
  (quick_denoise env clip ref cmode sigma kwargs = Err MissingParameterError <->
     has_mvsfunc env = true /\ bad_family (format clip) = false /\
     dft_mode cmode /\ kwargs !! "sbsize" = None)
  /\
  (forall S : Z,
     has_mvsfunc env = true -> bad_family (format clip) = false ->
     dft_mode cmode ->
     kwargs !! "sbsize" = Some (PInt S) -> kwargs !! "sosize" = None ->
     (3 * Z.abs S < 2 ^ 53)%Z ->
     let c := Input clip in
     let args := <["sosize" := PInt (Z.quot (3 * S) 4)]> kwargs in
     quick_denoise env clip ref cmode sigma kwargs
     = Ok (rejoined c ref sigma (DFTTest (Plane c 1) args) (DFTTest (Plane c 2) args))
     /\ ((0 <= S)%Z -> Z.quot (3 * S) 4 = Qfloor (inject_Z S * 0.75%Q))).
Proof.
  split; [split|].
  - intros H.
    destruct (has_mvsfunc env) eqn:Hm.
    2:{ rewrite (proj1 (quick_denoise_early env clip ref cmode sigma kwargs) Hm) in H.
        discriminate H. }
    destruct (bad_family (format clip)) eqn:Hb.
    1:{ rewrite (proj1 (proj2 (quick_denoise_early env clip ref cmode sigma kwargs))
                   Hm Hb) in H.
        vm_compute in H. discriminate H. }
    assert (Hstr : exists s, cmode = PStr s).
    { destruct cmode as [|z|q|s]; [| | |eauto];
        match type of H with
        | quick_denoise _ _ _ ?cm _ _ = _ =>
            destruct (proj2 (proj2 (quick_denoise_early env clip ref cm sigma kwargs))
                        Hm Hb ltac:(intros s; discriminate)) as [m Hq]
        end;
        rewrite Hq in H; discriminate H. }
    destruct Hstr as [s ->].
    destruct (good_family_format clip Hb) as (f & Hf & Hg).
    rewrite (quick_denoise_dispatch env clip f ref s sigma kwargs Hm Hf Hg) in H.
    pose proof (dispatch_table_outcome env (Input clip) ref s sigma kwargs) as Ho.
    destruct (documented_family s) as [F|] eqn:HF.
    + rewrite H in Ho.
      destruct Ho as [[w Hw]|[[m Hm']|[Hn|[(-> & Hsb & _)|(_ & _ & He)]]]].
      * discriminate Hw.
      * discriminate Hm'.
      * symmetry in Hn. destruct (nan_not_missing_parameter Hn).
      * repeat split; [exists s; auto | exact Hsb].
      * discriminate He.
    + rewrite H in Ho. apply (f_equal (fun r => match r with Err e => e | Ok _ => UnknownModeError end)) in Ho.
      destruct (missing_parameter_not_unknown_mode Ho).
  - intros (Hm & Hb & (s & -> & HF) & Hsb).
    destruct (good_family_format clip Hb) as (f & Hf & Hg).
    rewrite (quick_denoise_dispatch env clip f ref s sigma kwargs Hm Hf Hg).
    unfold dispatch_table. rewrite HF, Hsb. reflexivity.
  - intros S Hm Hb (s & -> & HF) Hsb Hso HS c args.
    destruct (good_family_format clip Hb) as (f & Hf & Hg).
    split; [|apply trunc_is_floor].
    rewrite (quick_denoise_dispatch env clip f ref s sigma kwargs Hm Hf Hg).
    unfold dispatch_table. rewrite HF, Hsb.
    rewrite (sosize_exact S HS). cbn [bind].
    unfold branch. cbn [call_kwargs]. rewrite Hso. reflexivity.
Qed.

Lemma dft_mode_DFT : dft_mode (PStr "DFT").
Proof. exists "DFT". split; reflexivity. Qed.

Lemma quick_denoise_dft_witness :
  quick_denoise env_all yuv8 None (PStr "DFT") (PInt 2) ∅ = Err MissingParameterError /\
  (let c := Input yuv8 in
   let args := <["sosize" := PInt (Z.quot (3 * 16) 4)]> {["sbsize" := PInt 16]} in
   quick_denoise env_all yuv8 None (PStr "DFT") (PInt 2) {["sbsize" := PInt 16]}
   = Ok (rejoined c None (PInt 2) (DFTTest (Plane c 1) args) (DFTTest (Plane c 2) args))
   /\ ((0 <= 16)%Z -> Z.quot (3 * 16) 4 = Qfloor (inject_Z 16 * 0.75%Q))).
Proof.
  split.
  - apply (proj1 (quick_denoise_dft env_all yuv8 None (PStr "DFT") (PInt 2) ∅)).
    repeat split; [apply dft_mode_DFT].
  - apply (proj2 (quick_denoise_dft env_all yuv8 None (PStr "DFT") (PInt 2)
                    {["sbsize" := PInt 16]}) 16%Z).
    + reflexivity.
    + reflexivity.
    + apply dft_mode_DFT.
    + reflexivity.
    + reflexivity.
    + reflexivity.
Defined.

(** C3 (as stated, refuted) at five inputs.  With 'sbsize' = 16 and a
    'sosize' entry in the map the chroma planes never reach DFTTest: the
    call is refused for the doubled keyword.  With 'sbsize' = -1 the derived
    sosize is 0 while floor(-0.75) is -1.  With 'sbsize' = 2^53 + 3 the
    operand is rounded to a float before the product, and the derived sosize
    is one more than floor(S * 0.75).  With 'sbsize' = 10^400 the product
    raises OverflowError.  Without mvsfunc the DFT mode without 'sbsize'
    fails with the dependency error instead. *)
Lemma quick_denoise_dft_counterexamples :
  quick_denoise env_all yuv8 None (PStr "dft") (PInt 2)
    (<["sosize" := PInt 12]> {["sbsize" := PInt 16]})
  = Err (TypeError (MultipleValues "sosize"))
  /\
  (quick_denoise env_all yuv8 None (PStr "dft") (PInt 2) {["sbsize" := PInt (-1)]}
   = Ok (rejoined (Input yuv8) None (PInt 2)
           (DFTTest (Plane (Input yuv8) 1) (<["sosize" := PInt 0]> {["sbsize" := PInt (-1)]}))
           (DFTTest (Plane (Input yuv8) 2) (<["sosize" := PInt 0]> {["sbsize" := PInt (-1)]})))
   /\ Qfloor (inject_Z (-1) * 0.75%Q) = (-1)%Z)
  /\
  (dft_sosize (PInt (2 ^ 53 + 3)) = Ok 6755399441055747%Z
   /\ Qfloor (inject_Z (2 ^ 53 + 3) * 0.75%Q) = 6755399441055746%Z)
  /\
  quick_denoise env_all yuv8 None (PStr "dft") (PInt 2) {["sbsize" := PInt (10 ^ 400)]}
  = Err (OverflowError msg_int_too_large)
  /\
  quick_denoise env_no_mvsfunc yuv8 None (PStr "dft") (PInt 2) ∅
  <> Err MissingParameterError.
Proof.
  split; [vm_compute; reflexivity|].
  split; [split; [vm_compute; reflexivity | reflexivity]|].
  split; [split; vm_compute; reflexivity|].
  split; [vm_compute; reflexivity|].
  discriminate.
Qed.

(** ** Entry checks *)

(** C9: whatever the clip and the other arguments, a call without mvsfunc
    fails with the dependency error; neither the colour family nor the mode
    is looked at. *)
Theorem quick_denoise_requires_mvsfunc (env : Env) (clip : VideoNode)
    (ref : option node) (cmode sigma : pyval) (kwargs : gmap string pyval) :
  has_mvsfunc env = false ->
  quick_denoise env clip ref cmode sigma kwargs
  = Err (DependencyMissingError msg_mvsfunc).
Proof.
  intros Hm. unfold quick_denoise. rewrite Hm. reflexivity.
Qed.

Lemma quick_denoise_requires_mvsfunc_witness :
  has_mvsfunc env_no_mvsfunc = false /\
  quick_denoise env_no_mvsfunc gray8 None (PInt 9) (PInt 2) ∅
  = Err (DependencyMissingError msg_mvsfunc).
Proof.
  split; [reflexivity|].
  apply (quick_denoise_requires_mvsfunc env_no_mvsfunc gray8 None (PInt 9) (PInt 2) ∅).
  reflexivity.
Defined.

(** C8 (amended): when mvsfunc imports, a clip of undetermined format or of
    a colour family other than YUV, YCOCG and RGB is rejected with
    FormatError, whatever the mode and the configuration map are. *)
Theorem quick_denoise_rejects_family (env : Env) (clip : VideoNode)
    (ref : option node) (cmode sigma : pyval) (kwargs : gmap string pyval) :
  has_mvsfunc env = true ->
  (forall f, format clip = Some f -> ~ In (color_family f) [YUV; YCOCG; RGB]) ->
  quick_denoise env clip ref cmode sigma kwargs = Err (FormatError msg_family).
Proof.
  intros Hm Hfam.
  apply (proj1 (proj2 (quick_denoise_early env clip ref cmode sigma kwargs)) Hm).
  destruct (format clip) as [f|]; [|reflexivity].
  specialize (Hfam f eq_refl). cbn in Hfam |- *.
  destruct (color_family f); cbn; first [reflexivity | exfalso; apply Hfam; auto].
Qed.

Lemma quick_denoise_rejects_family_witness :
  has_mvsfunc env_all = true /\
  quick_denoise env_all gray8 None (PStr "knlm") (PInt 2) ∅
  = Err (FormatError msg_family) /\
  quick_denoise env_all variable_clip None (PInt 1) (PInt 2) ∅
  = Err (FormatError msg_family).
Proof.
  split; [reflexivity|]. split.
  - apply (quick_denoise_rejects_family env_all gray8 None (PStr "knlm") (PInt 2) ∅).
    + reflexivity.
    + intros f [= <-]. cbn. intros [H|[H|[H|[]]]]; discriminate H.
  - apply (quick_denoise_rejects_family env_all variable_clip None (PInt 1) (PInt 2) ∅).
    + reflexivity.
    + intros f H. discriminate H.
Defined.

(** C8 (as stated, refuted): without mvsfunc a GRAY clip is not rejected
    with FormatError but with the dependency error. *)
Lemma quick_denoise_gray_without_mvsfunc :
  quick_denoise env_no_mvsfunc gray8 None (PStr "knlm") (PInt 2) ∅
  = Err (DependencyMissingError msg_mvsfunc) /\
  quick_denoise env_no_mvsfunc gray8 None (PStr "knlm") (PInt 2) ∅
  <> Err (FormatError msg_family).
Proof. split; [reflexivity | discriminate]. Qed.

(** ** Luma and rejoin *)

(** Every successful call returns the three planes rejoined in order, the
    first being BM3D of the clip's luma with [sigma], [radius1 = 1] and the
    reference, which is the luma plane itself when none is given. *)
Lemma quick_denoise_success (env : Env) (clip : VideoNode) (ref : option node)
    (cmode sigma : pyval) (kwargs : gmap string pyval) (out : node) :
  quick_denoise env clip ref cmode sigma kwargs = Ok out ->
  exists u v, out = rejoined (Input clip) ref sigma u v.
Proof.
  intros H.
  destruct (has_mvsfunc env) eqn:Hm.
  2:{ rewrite (proj1 (quick_denoise_early env clip ref cmode sigma kwargs) Hm) in H.
      discriminate H. }
  destruct (bad_family (format clip)) eqn:Hb.
  1:{ rewrite (proj1 (proj2 (quick_denoise_early env clip ref cmode sigma kwargs))
                 Hm Hb) in H.
      discriminate H. }
  assert (Hstr : exists s, cmode = PStr s).
  { destruct cmode as [|z|q|s]; [| | |eauto];
      match type of H with
      | quick_denoise _ _ _ ?cm _ _ = _ =>
          destruct (proj2 (proj2 (quick_denoise_early env clip ref cm sigma kwargs))
                      Hm Hb ltac:(intros s; discriminate)) as [m Hq]
      end;
      rewrite Hq in H; discriminate H. }
  destruct Hstr as [s ->].
  destruct (good_family_format clip Hb) as (f & Hf & Hg).
  rewrite (quick_denoise_dispatch env clip f ref s sigma kwargs Hm Hf Hg) in H.
  pose proof (dispatch_table_outcome env (Input clip) ref s sigma kwargs) as Ho.
  destruct (documented_family s) as [F|]; rewrite H in Ho; [apply Ho | discriminate Ho].
Qed.

(** The rejoined clip is tagged with the default family of [join], whatever
    the family of the input was. *)
Lemma quick_denoise_family (env : Env) (clip : VideoNode) (ref : option node)
    (cmode sigma : pyval) (kwargs : gmap string pyval) (out : node) :
  quick_denoise env clip ref cmode sigma kwargs = Ok out ->
  node_color_family out = Some YUV.
Proof.
  intros H. destruct (quick_denoise_success _ _ _ _ _ _ _ H) as (u & v & ->).
  reflexivity.
Qed.

(** X16: the family of the result does not depend on the family of the
    input: [join] is called without one, so two successful calls always
    agree on the family of what they return. *)
Lemma quick_denoise_family_fixed (env env' : Env) (clip clip' : VideoNode)
    (ref ref' : option node) (cmode cmode' sigma sigma' : pyval)
    (kwargs kwargs' : gmap string pyval) (out out' : node) :
  quick_denoise env clip ref cmode sigma kwargs = Ok out ->
  quick_denoise env' clip' ref' cmode' sigma' kwargs' = Ok out' ->
  node_color_family out = node_color_family out'.
Proof.
  intros H H'.
  rewrite (quick_denoise_family _ _ _ _ _ _ _ H).
  rewrite (quick_denoise_family _ _ _ _ _ _ _ H'). reflexivity.
Qed.

(** C6 (the code at the failing input): an RGB clip in the default mode is
    denoised and rejoined, luma through BM3D with the clip's own first plane
    as reference, but the result carries colour family YUV, not RGB. *)
Theorem quick_denoise_rgb_becomes_yuv :
  let c := Input rgb8 in
  let args : gmap string pyval := <["d" := PInt 3]> (<["a" := PInt 2]> ∅) in
  let out :=
    ShufflePlanes
      [BM3D (Plane c 0) (PInt 2) 0 1 (Plane c 0);
       KNLMeansCL (Plane c 1) args; KNLMeansCL (Plane c 2) args]
      [0; 0; 0] YUV in
  quick_denoise env_all rgb8 None (PStr "knlm") (PInt 2) ∅ = Ok out /\
  node_color_family c = Some RGB /\
  node_color_family out = Some YUV.
Proof.
  cbv zeta. split; [vm_compute; reflexivity|]. split; reflexivity.
Qed.

(** ** [detail_mask] *)

(** The two working copies and the effect of a falsy [sigma] need no
    assumption on the clip. *)

(** C4: the two working copies are the same clip: the Gaussian blur of the
    input with [sigma] when [sigma] is truthy, the input itself otherwise. *)
Theorem den_a_equals_den_b (clip : VideoNode) (sigma : pyval) :
  den_a clip sigma = den_b clip sigma /\
  den_a clip sigma
  = (if truthy sigma
     then quick_resample (Input clip) (BilateralGaussian sigma)
     else Input clip) /\
  den_a clip PNone = Input clip /\
  den_b clip PNone = Input clip.
Proof. repeat split. Qed.

(** C10: [sigma = 0.0] is falsy, so it gives the very mask that omitting
    [sigma] gives. *)
Theorem detail_mask_zero_sigma (env : Env) (clip : VideoNode)
    (rad radc : Z) (brz_a brz_b : pyval) :
  detail_mask env clip (PFloat 0) rad radc brz_a brz_b
  = detail_mask env clip PNone rad radc brz_a brz_b.
Proof. reflexivity. Qed.

(** *** Formats along the two detector chains *)

Lemma node_format_den_a (clip : VideoNode) (sigma : pyval) :
  node_format (den_a clip sigma) = format clip.
Proof. unfold den_a. destruct (truthy sigma); reflexivity. Qed.

Lemma node_format_den_b (clip : VideoNode) (sigma : pyval) :
  node_format (den_b clip sigma) = format clip.
Proof. unfold den_b. destruct (truthy sigma); reflexivity. Qed.

Lemma get_y_den_a (clip : VideoNode) (f : VideoFormat) (sigma : pyval) :
  format clip = Some f ->
  get_y (den_a clip sigma)
  = if has_luma f then Ok (GetY (den_a clip sigma)) else Err (ValueError msg_luma).
Proof. intros Hf. unfold get_y. rewrite node_format_den_a, Hf. reflexivity. Qed.

Lemma get_y_den_b (clip : VideoNode) (f : VideoFormat) (sigma : pyval) :
  format clip = Some f ->
  get_y (den_b clip sigma)
  = if has_luma f then Ok (GetY (den_b clip sigma)) else Err (ValueError msg_luma).
Proof. intros Hf. unfold get_y. rewrite node_format_den_b, Hf. reflexivity. Qed.

Lemma has_luma_iff (f : VideoFormat) :
  has_luma f = true <-> In (color_family f) [YUV; YCOCG; GRAY].
Proof.
  unfold has_luma. destruct (color_family f); cbn; split; intros H;
    first [reflexivity | discriminate H | solve [auto]
          | destruct H as [H|[H|[H|[]]]]; discriminate H].
Qed.



(** What a call of [detail_mask] that returns has passed, and what it
    returns. *)
Lemma detail_mask_shape (env : Env) (clip : VideoNode) (sigma : pyval)
    (rad radc : Z) (brz_a brz_b : pyval) (out : node) :
  detail_mask env clip sigma rad radc brz_a brz_b = Ok out ->
  has_debandshit env = true /\
  exists f, format clip = Some f /\ has_luma f = true /\
    let t := rescale_thresholds f brz_a brz_b in
    let ya := GetY (den_a clip sigma) in
    let a :=
      Binarize
        (depth
           (RangeMask (if (bits_per_sample f <? 32)%Z then depth ya 16 else ya)
              rad radc)
           (bits_per_sample f))
        (fst t) in
    let b := Binarize (Prewitt (GetY (den_b clip sigma))) (snd t) in
    out = pick_removegrain (pick_removegrain (merge a b) (merge a b) 22)
            (pick_removegrain (merge a b) (merge a b) 22) 11.
Proof.
  unfold detail_mask. destruct (has_debandshit env); [|discriminate].
  cbn [import_or bind]. destruct (format clip) as [f|] eqn:Hf; [|discriminate].
  destruct (rescale_thresholds f brz_a brz_b) as [ta tb] eqn:Ht.
  unfold mask_a, mask_b.
  rewrite (get_y_den_a clip f sigma Hf), (get_y_den_b clip f sigma Hf).
  destruct (has_luma f) eqn:Hl.
  2:{ destruct (bits_per_sample f <? 32)%Z; cbn [bind]; discriminate. }
  intros H. split; [reflexivity|]. exists f.
  split; [reflexivity|]. split; [exact Hl|].
  cbv zeta. rewrite Ht. cbn [fst snd].
  destruct (bits_per_sample f <? 32)%Z; cbn [bind] in H; injection H as <-;
    reflexivity.
Qed.

Lemma detail_mask_merged (env : Env) (clip : VideoNode) (sigma : pyval)
    (rad radc : Z) (brz_a brz_b : pyval) (out : node) :
  detail_mask env clip sigma rad radc brz_a brz_b = Ok out ->
  exists a b,
    detectors out = Some (a, b) /\
    merged out = Some (merge a b).
Proof.
  intros H.
  destruct (detail_mask_shape _ _ _ _ _ _ _ _ H) as (_ & f & _ & _ & Hout).
  cbv zeta in Hout. subst out. eexists _, _. split; reflexivity.
Qed.

(** C2 (the code at the failing input): on a 32-bit float clip the integer
    thresholds 1 and 1 reach both binarisations as the integers they were,
    not rescaled to the floating-point range: the rescaling of lines 156 and
    158 is asked from the clip's depth, 32, to 32.  On an 8-bit clip the
    float thresholds are rescaled from 32 to 8 bits. *)
Theorem detail_mask_integer_threshold_at_float_depth :
  (let y := GetY (Input yuv32) in
   let a := Binarize (RangeMask y 3 2) (Thr (PInt 1)) in
   let b := Binarize (Prewitt y) (Thr (PInt 1)) in
   let m := StdExpr [a; b] "x y max" in
   detail_mask env_all yuv32 PNone 3 2 (PInt 1) (PInt 1)
   = Ok (PickedRemoveGrain (PickedRemoveGrain m m 22) (PickedRemoveGrain m m 22) 11)) /\
  rescale_thresholds (mk_format YUV 32) (PInt 1) (PInt 1)
  = (Thr (PInt 1), Thr (PInt 1)) /\
  rescale_thresholds (mk_format YUV 8) (PFloat 0.005%Q) (PFloat 0.005%Q)
  = (ScaleValue (PFloat 0.005%Q) 32 8, ScaleValue (PFloat 0.005%Q) 32 8).
Proof. cbv zeta. repeat split. Qed.



(** ** The merge step *)

Lemma merge_expr_tokens :
  parse_tokens (words EmptyString merge_expr) = Some [TLoad 0; TLoad 1; TMax].
Proof. reflexivity. Qed.

Lemma run_max (a b : Z) :
  run [TLoad 0; TLoad 1; TMax] [a; b] [] = Some (Z.max a b).
Proof. reflexivity. Qed.

(** Evaluating the merge expression over any pixels that both clips have. *)
Lemma eval_pixels_max (peak : Z) (A B : list Z) (ps : list nat) :
  Forall (fun p => (p < length A)%nat /\ (p < length B)%nat) ps ->
  eval_pixels [TLoad 0; TLoad 1; TMax] peak [A; B] ps
  = Some (map (fun p => clamp peak (Z.max (nth p A 0%Z) (nth p B 0%Z))) ps).
Proof.
  induction 1 as [|p ps [HA HB] _ IH]; [reflexivity|].
  cbn [eval_pixels pixel_at map].
  destruct (lookup_lt_is_Some_2 A p HA) as [a Ha].
  destruct (lookup_lt_is_Some_2 B p HB) as [b Hb].
  rewrite Ha, Hb, run_max, IH.
  rewrite (nth_lookup_Some A p 0%Z a Ha), (nth_lookup_Some B p 0%Z b Hb).
  reflexivity.
Qed.

Lemma clamp_binarized (peak a b : Z) :
  (0 <= peak)%Z -> (a = 0 \/ a = peak)%Z -> (b = 0 \/ b = peak)%Z ->
  clamp peak (Z.max a b) = Z.max a b.
Proof. unfold clamp. lia. Qed.

(** The merged mask, written out. *)
Lemma merge_value (peak : Z) (A B : list Z) :
  length A = length B ->
  Expr peak [A; B] merge_expr
  = Some (map (fun p => clamp peak (Z.max (nth p A 0%Z) (nth p B 0%Z)))
            (seq 0 (length A))).
Proof.
  intros Hlen. unfold Expr. cbn [forallb].
  rewrite <- Hlen, Nat.eqb_refl. cbn [andb].
  change (String.eqb merge_expr EmptyString) with false. cbv iota.
  rewrite merge_expr_tokens.
  apply eval_pixels_max.
  apply Forall_forall. intros p Hp. apply elem_of_seq in Hp.
  rewrite <- Hlen. lia.
Qed.

Lemma merge_refused (peak : Z) (A B : list Z) :
  length A <> length B -> Expr peak [A; B] merge_expr = None.
Proof.
  intros Hlen. unfold Expr. cbn [forallb].
  rewrite Nat.eqb_refl. cbn [andb].
  apply Nat.eqb_neq in Hlen. rewrite Nat.eqb_sym in Hlen. rewrite Hlen.
  reflexivity.
Qed.

Lemma merge_lookup (peak : Z) (A B : list Z) (p : nat) (a b : Z) :
  A !! p = Some a -> B !! p = Some b ->
  map (fun p => clamp peak (Z.max (nth p A 0%Z) (nth p B 0%Z))) (seq 0 (length A)) !! p
  = Some (clamp peak (Z.max a b)).
Proof.
  intros Ha Hb.
  pose proof (lookup_lt_Some _ _ _ Ha) as Hlt.
  rewrite list_lookup_fmap, (lookup_seq_lt 0 (length A) p Hlt).
  cbn [fmap option_fmap option_map Nat.add].
  rewrite (nth_lookup_Some A p 0%Z a Ha), (nth_lookup_Some B p 0%Z b Hb).
  reflexivity.
Qed.

(** The node that [merge] builds is evaluated by [Expr] on the samples of
    the two detector outputs, with the expression of line 174. *)
Lemma denote_merge (peak : Z) (sem : node -> option (list Z)) (a b : node)
    (A B : list Z) :
  sem a = Some A -> sem b = Some B ->
  denote peak sem (merge a b) = Expr peak [A; B] merge_expr.
Proof.
  intros Ha Hb. unfold merge. cbn [denote all_samples]. rewrite Ha, Hb.
  reflexivity.
Qed.

Lemma expr_max_in_range (peak : Z) (A B : list Z) :
  in_range peak A ->
  in_range peak B ->
  length A = length B ->
  exists M,
    Expr peak [A; B] merge_expr = Some M /\
    length M = length A /\
    in_range peak M /\
    forall (p : nat) (a b : Z),
      A !! p = Some a -> B !! p = Some b -> M !! p = Some (Z.max a b).
Proof.
  intros HA HB Hlen. rewrite (merge_value peak A B Hlen).
  eexists. split; [reflexivity|].
  assert (Hpx : forall (p : nat) (a b : Z),
             A !! p = Some a -> B !! p = Some b ->
             map (fun p => clamp peak (Z.max (nth p A 0%Z) (nth p B 0%Z)))
               (seq 0 (length A)) !! p = Some (Z.max a b)).
  { intros p a b Ha Hb. rewrite (merge_lookup peak A B p a b Ha Hb). f_equal.
    pose proof (proj1 (Forall_lookup _ A) HA p a Ha) as Ha'.
    pose proof (proj1 (Forall_lookup _ B) HB p b Hb) as Hb'.
    cbn beta in Ha', Hb'. unfold clamp. lia. }
  split; [rewrite length_map, length_seq; reflexivity|].
  split; [|exact Hpx].
  apply Forall_lookup. intros p x Hx.
  assert (Hlt : (p < length A)%nat).
  { apply lookup_lt_Some in Hx. rewrite length_map, length_seq in Hx. exact Hx. }
  destruct (lookup_lt_is_Some_2 A p Hlt) as [a Ha].
  destruct (lookup_lt_is_Some_2 B p ltac:(rewrite <- Hlen; exact Hlt)) as [b Hb].
  rewrite (Hpx p a b Ha Hb) in Hx. injection Hx as <-.
  pose proof (proj1 (Forall_lookup _ A) HA p a Ha) as Ha'.
  pose proof (proj1 (Forall_lookup _ B) HB p b Hb) as Hb'.
  cbn beta in Ha', Hb' |- *. lia.
Qed.

Lemma binarized_in_range (peak : Z) (m : list Z) :
  (0 <= peak)%Z -> binarized peak m -> in_range peak m.
Proof.
  intros Hpeak H. unfold binarized, in_range in *.
  eapply Forall_impl; [exact H|]. intros v Hv. cbn beta in Hv |- *. lia.
Qed.

Lemma expr_max_binarized (peak : Z) (A B : list Z) :
  (0 < peak)%Z ->
  binarized peak A ->
  binarized peak B ->
  length A = length B ->
  exists M,
    Expr peak [A; B] merge_expr = Some M /\
    binarized peak M /\
    forall p : nat,
      M !! p = Some peak <-> (A !! p = Some peak \/ B !! p = Some peak).
Proof.
  intros Hpeak HA HB Hlen.
  destruct (expr_max_in_range peak A B
              (binarized_in_range peak A ltac:(lia) HA)
              (binarized_in_range peak B ltac:(lia) HB) Hlen)
    as (M & HM & HlenM & _ & Hpx).
  exists M. split; [exact HM|].
  assert (Hboth : forall p x, M !! p = Some x ->
             exists a b, A !! p = Some a /\ B !! p = Some b /\
               (a = 0 \/ a = peak)%Z /\ (b = 0 \/ b = peak)%Z /\ x = Z.max a b).
  { intros p x Hx.
    assert (Hlt : (p < length A)%nat).
    { apply lookup_lt_Some in Hx. rewrite HlenM in Hx. exact Hx. }
    destruct (lookup_lt_is_Some_2 A p Hlt) as [a Ha].
    destruct (lookup_lt_is_Some_2 B p ltac:(rewrite <- Hlen; exact Hlt)) as [b Hb].
    rewrite (Hpx p a b Ha Hb) in Hx. injection Hx as <-.
    exists a, b. repeat split; try assumption.
    - exact (proj1 (Forall_lookup _ A) HA p a Ha).
    - exact (proj1 (Forall_lookup _ B) HB p b Hb). }
  split.
  - apply Forall_lookup. intros p x Hx.
    destruct (Hboth p x Hx) as (a & b & _ & _ & Ha & Hb & ->). lia.
  - intros p. split.
    + intros Hx. destruct (Hboth p peak Hx) as (a & b & Ha & Hb & Ha' & Hb' & Hmax).
      destruct Ha' as [->| ->]; [|left; exact Ha].
      destruct Hb' as [->| ->]; [|right; exact Hb].
      rewrite Z.max_id in Hmax. lia.
    + intros [Ha|Hb].
      * pose proof (lookup_lt_Some _ _ _ Ha) as Hlt.
        destruct (lookup_lt_is_Some_2 B p ltac:(rewrite <- Hlen; exact Hlt)) as [b Hb].
        rewrite (Hpx p peak b Ha Hb). f_equal.
        pose proof (proj1 (Forall_lookup _ B) HB p b Hb) as Hb'. cbn beta in Hb'. lia.
      * pose proof (lookup_lt_Some _ _ _ Hb) as Hlt.
        destruct (lookup_lt_is_Some_2 A p ltac:(rewrite Hlen; exact Hlt)) as [a Ha].
        rewrite (Hpx p a peak Ha Hb). f_equal.
        pose proof (proj1 (Forall_lookup _ A) HA p a Ha) as Ha'. cbn beta in Ha'. lia.
Qed.

Lemma expr_max_comm (peak : Z) (A B : list Z) :
  Expr peak [A; B] merge_expr = Expr peak [B; A] merge_expr.
Proof.
  destruct (Nat.eq_dec (length A) (length B)) as [Hlen|Hlen].
  - rewrite (merge_value peak A B Hlen), (merge_value peak B A (eq_sym Hlen)).
    rewrite Hlen. f_equal. apply map_ext. intros p. rewrite Z.max_comm. reflexivity.
  - rewrite (merge_refused peak A B Hlen).
    rewrite (merge_refused peak B A (fun E => Hlen (eq_sym E))). reflexivity.
Qed.

Lemma denote_merge_comm (peak : Z) (sem : node -> option (list Z)) (a b : node) :
  denote peak sem (merge a b) = denote peak sem (merge b a).
Proof.
  unfold merge. cbn [denote all_samples].
  destruct (sem a) as [A|], (sem b) as [B|]; try reflexivity.
  apply expr_max_comm.
Qed.

(** C7: the mask that [detail_mask] hands to the smoothing passes is the
    merge of its two detector outputs, and on two binarised masks of the
    same size it holds, at every pixel, the maximum of the two samples. *)
Theorem merge_is_pixelwise_max (env : Env) (clip : VideoNode) (sigma : pyval)
    (rad radc : Z) (brz_a brz_b : pyval) (out : node) :
  detail_mask env clip sigma rad radc brz_a brz_b = Ok out ->
  exists a b,
    detectors out = Some (a, b) /\
    merged out = Some (merge a b) /\
    forall (peak : Z) (sem : node -> option (list Z)) (A B : list Z),
      sem a = Some A -> sem b = Some B ->
      (0 <= peak)%Z ->
      binarized peak A ->
      binarized peak B ->
      length A = length B ->
      exists M,
        denote peak sem (merge a b) = Some M /\
        length M = length A /\
        forall (p : nat) (x y : Z),
          A !! p = Some x -> B !! p = Some y -> M !! p = Some (Z.max x y).
Proof.
  intros H. destruct (detail_mask_merged _ _ _ _ _ _ _ _ H) as (a & b & Hab & Hm).
  exists a, b. split; [exact Hab|]. split; [exact Hm|].
  intros peak sem A B Ha Hb Hpeak HA HB Hlen.
  rewrite (denote_merge peak sem a b A B Ha Hb).
  destruct (expr_max_in_range peak A B
              (binarized_in_range peak A Hpeak HA)
              (binarized_in_range peak B Hpeak HB) Hlen)
    as (M & HM & HlenM & _ & Hpx).
  exists M. auto.
Qed.

Lemma merge_is_pixelwise_max_witness :
  exists out m M,
    detail_mask env_all yuv8 PNone 3 2 (PFloat 0.005%Q) (PFloat 0.005%Q) = Ok out /\
    merged out = Some m /\
    denote 255 (two_masks [0; 255; 0; 255]%Z [0; 0; 255; 255]%Z) m = Some M /\
    M !! 0%nat = Some 0%Z /\ M !! 1%nat = Some 255%Z /\
    M !! 2%nat = Some 255%Z /\ M !! 3%nat = Some 255%Z.
Proof.
  destruct (detail_mask env_all yuv8 PNone 3 2 (PFloat 0.005%Q) (PFloat 0.005%Q))
    as [out|e] eqn:H; [|vm_compute in H; discriminate H].
  pose proof (merge_is_pixelwise_max env_all yuv8 PNone 3 2
                (PFloat 0.005%Q) (PFloat 0.005%Q) out H) as T.
  vm_compute in H. injection H as <-.
  destruct T as (a & b & Hab & Hm & Hpx).
  cbn in Hab. injection Hab as <- <-.
  destruct (Hpx 255%Z (two_masks [0; 255; 0; 255]%Z [0; 0; 255; 255]%Z)
              [0; 255; 0; 255]%Z [0; 0; 255; 255]%Z eq_refl eq_refl)
    as (M & HM & _ & HpxM).
  - lia.
  - unfold binarized. repeat (constructor; [lia|]). constructor.
  - unfold binarized. repeat (constructor; [lia|]). constructor.
  - reflexivity.
  - eexists _, _, M. split; [reflexivity|]. split; [exact Hm|].
    split; [exact HM|].
    split; [exact (HpxM 0%nat 0%Z 0%Z eq_refl eq_refl)|].
    split; [exact (HpxM 1%nat 255%Z 0%Z eq_refl eq_refl)|].
    split; [exact (HpxM 2%nat 0%Z 255%Z eq_refl eq_refl)|].
    exact (HpxM 3%nat 255%Z 255%Z eq_refl eq_refl).
Defined.

(** * Further properties of the code *)

(** ** Keyword merging *)

Lemma call_kwargs_fresh (fixed : list (string * pyval))
    (kwargs : gmap string pyval) :
  (forall k, In k (map fst fixed) -> kwargs !! k = None) ->
  exists args,
    call_kwargs fixed kwargs = Ok args /\
    kwargs ⊆ args /\
    dom args = dom kwargs ∪ list_to_set (map fst fixed).
Proof.
  induction fixed as [|[k v] rest IH]; intros Hfresh.
  - exists kwargs. cbn. split; [reflexivity|]. split; [reflexivity|].
    cbn [map list_to_set]. symmetry. apply (right_id_L ∅ (∪)).
  - destruct IH as (m & Hm & Hsub & Hdom).
    { intros k' Hk'. apply Hfresh. right. exact Hk'. }
    exists (<[k := v]> m). cbn [call_kwargs].
    rewrite (Hfresh k) by (left; reflexivity). rewrite Hm. cbn [bind].
    split; [reflexivity|]. split.
    + apply insert_subseteq_r; [|exact Hsub]. apply Hfresh. left. reflexivity.
    + rewrite dom_insert_L, Hdom. cbn [map fst list_to_set].
      rewrite !(assoc_L (∪)), (comm_L (∪) {[k]}). reflexivity.
Qed.

Lemma call_kwargs_ok_fresh (fixed : list (string * pyval))
    (kwargs args : gmap string pyval) :
  call_kwargs fixed kwargs = Ok args ->
  forall k, In k (map fst fixed) -> kwargs !! k = None.
Proof.
  revert args. induction fixed as [|[k v] rest IH]; intros args H k' Hk'.
  - destruct Hk'.
  - cbn [call_kwargs] in H.
    destruct (kwargs !! k) eqn:Hk; [discriminate H|].
    destruct (call_kwargs rest kwargs) as [m|e] eqn:Hm; [|discriminate H].
    destruct Hk' as [<-|Hk']; [exact Hk|]. exact (IH m eq_refl k' Hk').
Qed.

Lemma branch_keywords_keys (F : family) (env : Env)
    (kwargs : gmap string pyval) (fixed : list (string * pyval)) :
  branch_keywords F env kwargs = Ok fixed -> map fst fixed = fixed_keys F.
Proof.
  destruct F; cbn [branch_keywords].
  - intros [= <-]. reflexivity.
  - intros [= <-]. reflexivity.
  - destruct (kwargs !! "sbsize") as [sb|]; [|discriminate].
    destruct (dft_sosize sb); cbn [bind]; [|discriminate].
    intros [= <-]. reflexivity.
  - destruct (has_havsfunc env); cbn [import_or bind]; [|discriminate].
    intros [= <-]. reflexivity.
Qed.

(** The table, with the four branches written as one. *)
Lemma dispatch_table_family (env : Env) (c : node) (ref : option node)
    (s : string) (sigma : pyval) (kwargs : gmap string pyval) (F : family) :
  documented_family s = Some F ->
  dispatch_table env c ref s sigma kwargs
  = (let* fixed := branch_keywords F env kwargs in
     branch (plugin F) fixed kwargs c ref sigma).
Proof.
  intros HF. unfold dispatch_table. rewrite HF.
  destruct F; cbn [branch_keywords plugin bind]; try reflexivity.
  - destruct (kwargs !! "sbsize") as [sb|]; [|reflexivity].
    destruct (dft_sosize sb); reflexivity.
  - destruct (has_havsfunc env); reflexivity.
Qed.

Lemma good_family_iff (o : option VideoFormat) :
  bad_family o = false <->
  exists f, o = Some f /\ In (color_family f) [YUV; YCOCG; RGB].
Proof.
  split.
  - destruct o as [f|]; [|discriminate]. intros H. exists f. split; [reflexivity|].
    cbn in H |- *. destruct (color_family f); cbn in H; try discriminate H; auto.
  - intros (f & -> & Hin). cbn in Hin |- *.
    destruct Hin as [<-|[<-|[<-|[]]]]; reflexivity.
Qed.

(** A call ends well only with mvsfunc, a good family and a string mode. *)
Lemma quick_denoise_ok_checks (env : Env) (clip : VideoNode) (ref : option node)
    (cmode sigma : pyval) (kwargs : gmap string pyval) (out : node) :
  quick_denoise env clip ref cmode sigma kwargs = Ok out ->
  has_mvsfunc env = true /\
  exists f s, format clip = Some f /\ bad_family (Some f) = false /\
    cmode = PStr s /\
    dispatch_table env (Input clip) ref s sigma kwargs = Ok out.
Proof.
  intros H.
  destruct (has_mvsfunc env) eqn:Hm.
  2:{ rewrite (proj1 (quick_denoise_early env clip ref cmode sigma kwargs) Hm) in H.
      discriminate H. }
  destruct (bad_family (format clip)) eqn:Hb.
  1:{ rewrite (proj1 (proj2 (quick_denoise_early env clip ref cmode sigma kwargs))
                 Hm Hb) in H.
      discriminate H. }
  destruct (good_family_format clip Hb) as (f & Hf & Hg).
  destruct cmode as [|z|q|s].
  1-3: match type of H with
       | quick_denoise _ _ _ ?cm _ _ = _ =>
           destruct (proj2 (proj2 (quick_denoise_early env clip ref cm sigma kwargs))
                       Hm Hb ltac:(intros s; discriminate)) as [m Hq]
       end; rewrite Hq in H; discriminate H.
  rewrite (quick_denoise_dispatch env clip f ref s sigma kwargs Hm Hf Hg) in H.
  split; [reflexivity|]. exists f, s. auto.
Qed.

(** Every failure of the model of [quick_denoise]. *)
Lemma quick_denoise_error_cases (env : Env) (clip : VideoNode)
    (ref : option node) (cmode sigma : pyval) (kwargs : gmap string pyval)
    (e : exn) :
  quick_denoise env clip ref cmode sigma kwargs = Err e ->
  e = ModuleNotFoundError msg_mvsfunc \/
  e = ValueError msg_family \/
  (exists m, e = AttributeError m) \/
  (exists w, e = TypeError w) \/
  (exists m, e = OverflowError m) \/
  e = ValueError msg_float_nan \/
  e = ValueError msg_sbsize \/
  e = ModuleNotFoundError msg_havsfunc \/
  e = ValueError msg_cmode.
Proof.
  intros H.
  destruct (has_mvsfunc env) eqn:Hm.
  2:{ rewrite (proj1 (quick_denoise_early env clip ref cmode sigma kwargs) Hm) in H.
      injection H as <-. auto. }
  destruct (bad_family (format clip)) eqn:Hb.
  1:{ rewrite (proj1 (proj2 (quick_denoise_early env clip ref cmode sigma kwargs))
                 Hm Hb) in H.
      injection H as <-. auto. }
  destruct (good_family_format clip Hb) as (f & Hf & Hg).
  destruct cmode as [|z|q|s].
  1-3: match type of H with
       | quick_denoise _ _ _ ?cm _ _ = _ =>
           destruct (proj2 (proj2 (quick_denoise_early env clip ref cm sigma kwargs))
                       Hm Hb ltac:(intros s; discriminate)) as [m Hq]
       end; rewrite Hq in H; injection H as <-; eauto.
  rewrite (quick_denoise_dispatch env clip f ref s sigma kwargs Hm Hf Hg) in H.
  pose proof (dispatch_table_outcome env (Input clip) ref s sigma kwargs) as Ho.
  rewrite H in Ho.
  destruct (documented_family s) as [F|].
  - destruct Ho as [Ht|[Hov|[Hn|[(_ & _ & ->)|(_ & _ & ->)]]]];
      unfold MissingParameterError, DependencyMissingError; auto 12.
  - injection Ho as ->. unfold UnknownModeError. auto 12.
Qed.

(** ** When [quick_denoise] succeeds, and with what *)

(** X1: a call of [quick_denoise] that returns a clip had mvsfunc, a clip
    of family YUV, YCOCG or RGB, a string mode naming one of the four
    families, a configuration map without any of the keywords that the
    family's branch passes by name, and moreover, for DFT, an 'sbsize' for
    which [int(sbsize * 0.75)] has a value and, for SMDegrain, havsfunc. *)
Theorem quick_denoise_success_requires (env : Env) (clip : VideoNode)
    (ref : option node) (cmode sigma : pyval) (kwargs : gmap string pyval)
    (out : node) :
  quick_denoise env clip ref cmode sigma kwargs = Ok out ->
  has_mvsfunc env = true /\
  (exists f, format clip = Some f /\ In (color_family f) [YUV; YCOCG; RGB]) /\
  exists s F,
    cmode = PStr s /\ documented_family s = Some F /\
    (forall k, In k (fixed_keys F) -> kwargs !! k = None) /\
    (F = DFT ->
     exists sb so, kwargs !! "sbsize" = Some sb /\ dft_sosize sb = Ok so) /\
    (F = SMD -> has_havsfunc env = true).
Proof.
  intros H.
  destruct (quick_denoise_ok_checks _ _ _ _ _ _ _ H)
    as (Hm & f & s & Hf & Hg & -> & Hd).
  split; [exact Hm|]. split.
  { exists f. split; [exact Hf|].
    destruct (proj1 (good_family_iff (Some f)) Hg) as (f' & [= <-] & Hin).
    exact Hin. }
  destruct (documented_family s) as [F|] eqn:HF.
  2:{ unfold dispatch_table in Hd. rewrite HF in Hd. discriminate Hd. }
  exists s, F. split; [reflexivity|]. split; [exact HF|].
  rewrite (dispatch_table_family _ _ _ _ _ _ F HF) in Hd.
  destruct (branch_keywords F env kwargs) as [fixed|e] eqn:Hk; [|discriminate Hd].
  cbn [bind] in Hd. unfold branch in Hd.
  destruct (call_kwargs fixed kwargs) as [args|e] eqn:Hc; [|discriminate Hd].
  split; [|split].
  - intros k Hin. apply (call_kwargs_ok_fresh fixed kwargs args Hc).
    rewrite (branch_keywords_keys F env kwargs fixed Hk). exact Hin.
  - intros ->. cbn [branch_keywords] in Hk.
    destruct (kwargs !! "sbsize") as [sb|]; [|discriminate Hk].
    destruct (dft_sosize sb) as [so|e] eqn:Hso; [|discriminate Hk].
    exists sb, so. split; [reflexivity | exact Hso].
  - intros ->. cbn [branch_keywords] in Hk.
    destruct (has_havsfunc env); [reflexivity|discriminate Hk].
Qed.

Lemma quick_denoise_success_requires_witness :
  exists out so,
    quick_denoise env_all yuv8 None (PStr "dft") (PInt 2) {["sbsize" := PInt 16]}
      = Ok out /\
    dft_sosize (PInt 16) = Ok so /\
    ({["sbsize" := PInt 16]} : gmap string pyval) !! "sosize" = None.
Proof.
  destruct (quick_denoise env_all yuv8 None (PStr "dft") (PInt 2)
              {["sbsize" := PInt 16]}) as [out|e] eqn:H;
    [|vm_compute in H; discriminate H].
  destruct (quick_denoise_success_requires env_all yuv8 None (PStr "dft") (PInt 2)
              {["sbsize" := PInt 16]} out H)
    as (_ & _ & s & F & Hs & HF & Hfresh & Hdft & _).
  injection Hs as <-. vm_compute in HF. injection HF as <-.
  destruct (Hdft eq_refl) as (sb & so & Hsb & Hso).
  vm_compute in Hsb. injection Hsb as <-.
  exists out, so. split; [reflexivity|]. split; [exact Hso|].
  apply Hfresh. left. reflexivity.
Defined.

(** X2: [quick_denoise] never fails with an IndexError: when the accesses
    to [planes[0]], [planes[1]] and [planes[2]] are reached, the colour
    family check has left only clips of three planes. *)
Theorem quick_denoise_planes_in_range (env : Env) (clip : VideoNode)
    (ref : option node) (cmode sigma : pyval) (kwargs : gmap string pyval)
    (m : string) :
  quick_denoise env clip ref cmode sigma kwargs <> Err (IndexError m).
Proof.
  intros H.
  destruct (quick_denoise_error_cases _ _ _ _ _ _ _ H)
    as [E|[E|[[x E]|[[x E]|[[x E]|[E|[E|[E|E]]]]]]]]; discriminate E.
Qed.

(** X3: a successful call returns the three planes in their order: BM3D of
    the first plane with [sigma], [radius1 = 1] and the given reference (the
    first plane itself when none is given), and the second and third plane
    through the same plugin with the same arguments; these arguments are the
    configuration map, every entry unchanged, extended by exactly the
    keywords of the branch. *)
Theorem quick_denoise_result (env : Env) (clip : VideoNode)
    (ref : option node) (cmode sigma : pyval) (kwargs : gmap string pyval)
    (out : node) :
  quick_denoise env clip ref cmode sigma kwargs = Ok out ->
  exists s F args,
    cmode = PStr s /\ documented_family s = Some F /\
    out = ShufflePlanes
            [BM3D (Plane (Input clip) 0) sigma 0 1
               (default (Plane (Input clip) 0) ref);
             plugin F (Plane (Input clip) 1) args;
             plugin F (Plane (Input clip) 2) args]
            [0; 0; 0] YUV /\
    kwargs ⊆ args /\
    dom args = dom kwargs ∪ list_to_set (fixed_keys F).
Proof.
  intros H.
  destruct (quick_denoise_ok_checks _ _ _ _ _ _ _ H)
    as (Hm & f & s & Hf & Hg & -> & Hd).
  destruct (documented_family s) as [F|] eqn:HF.
  2:{ unfold dispatch_table in Hd. rewrite HF in Hd. discriminate Hd. }
  rewrite (dispatch_table_family _ _ _ _ _ _ F HF) in Hd.
  destruct (branch_keywords F env kwargs) as [fixed|e] eqn:Hk; [|discriminate Hd].
  cbn [bind] in Hd. unfold branch in Hd.
  destruct (call_kwargs fixed kwargs) as [args|e] eqn:Hc; [|discriminate Hd].
  injection Hd as <-.
  destruct (call_kwargs_fresh fixed kwargs
              (call_kwargs_ok_fresh fixed kwargs args Hc))
    as (args' & Hc' & Hsub & Hdom).
  rewrite Hc in Hc'. injection Hc' as <-.
  exists s, F, args. repeat split; try assumption.
  rewrite Hdom, (branch_keywords_keys F env kwargs fixed Hk). reflexivity.
Qed.

Lemma quick_denoise_result_witness :
  exists out s F args,
    quick_denoise env_all yuv8 None (PStr "TNLM") (PInt 2) {["h" := PFloat 0.5%Q]}
      = Ok out /\
    documented_family s = Some F /\
    out = ShufflePlanes
            [BM3D (Plane (Input yuv8) 0) (PInt 2) 0 1 (Plane (Input yuv8) 0);
             plugin F (Plane (Input yuv8) 1) args;
             plugin F (Plane (Input yuv8) 2) args]
            [0; 0; 0] YUV /\
    ({["h" := PFloat 0.5%Q]} : gmap string pyval) ⊆ args.
Proof.
  destruct (quick_denoise env_all yuv8 None (PStr "TNLM") (PInt 2)
              {["h" := PFloat 0.5%Q]}) as [out|e] eqn:H;
    [|vm_compute in H; discriminate H].
  destruct (quick_denoise_result env_all yuv8 None (PStr "TNLM") (PInt 2)
              {["h" := PFloat 0.5%Q]} out H)
    as (s & F & args & _ & HF & Hout & Hsub & _).
  exists out, s, F, args. auto.
Defined.

(** ** What the mode, the dependencies and the luma arguments can change *)

(** X4: the mode matters only through the family it names: two strings that
    name the same family (or both none) give the same outcome, error or
    clip, on the same arguments. *)
Theorem quick_denoise_aliases (env : Env) (clip : VideoNode)
    (ref : option node) (s t : string) (sigma : pyval)
    (kwargs : gmap string pyval) :
  documented_family s = documented_family t ->
  quick_denoise env clip ref (PStr s) sigma kwargs
  = quick_denoise env clip ref (PStr t) sigma kwargs.
Proof.
  intros Hst.
  destruct (has_mvsfunc env) eqn:Hm.
  2:{ rewrite !(proj1 (quick_denoise_early env clip ref _ sigma kwargs) Hm).
      reflexivity. }
  destruct (bad_family (format clip)) eqn:Hb.
  1:{ rewrite !(proj1 (proj2 (quick_denoise_early env clip ref _ sigma kwargs)) Hm Hb).
      reflexivity. }
  destruct (good_family_format clip Hb) as (f & Hf & Hg).
  rewrite !(quick_denoise_dispatch env clip f ref _ sigma kwargs Hm Hf Hg).
  unfold dispatch_table. rewrite Hst. reflexivity.
Qed.

Lemma quick_denoise_aliases_witness :
  documented_family "knlm" = documented_family "KNLMeansCL" /\
  quick_denoise env_all yuv8 None (PStr "knlm") (PInt 2) ∅
  = quick_denoise env_all yuv8 None (PStr "KNLMeansCL") (PInt 2) ∅.
Proof.
  split; [reflexivity|].
  apply (quick_denoise_aliases env_all yuv8 None "knlm" "KNLMeansCL" (PInt 2) ∅).
  reflexivity.
Defined.

(** X5: havsfunc is looked for only in the SMDegrain branch: for any mode
    that does not name SMDegrain, string or not, the outcome is the same
    with and without havsfunc. *)
Theorem quick_denoise_havsfunc_frame (env env' : Env) (clip : VideoNode)
    (ref : option node) (cmode sigma : pyval) (kwargs : gmap string pyval) :
  has_mvsfunc env = has_mvsfunc env' ->
  (forall s, cmode = PStr s -> documented_family s <> Some SMD) ->
  quick_denoise env clip ref cmode sigma kwargs
  = quick_denoise env' clip ref cmode sigma kwargs.
Proof.
  intros Hmm Hsmd.
  destruct (has_mvsfunc env) eqn:Hm; symmetry in Hmm.
  2:{ rewrite (proj1 (quick_denoise_early env clip ref cmode sigma kwargs) Hm),
              (proj1 (quick_denoise_early env' clip ref cmode sigma kwargs) Hmm).
      reflexivity. }
  destruct (bad_family (format clip)) eqn:Hb.
  1:{ rewrite (proj1 (proj2 (quick_denoise_early env clip ref cmode sigma kwargs)) Hm Hb),
              (proj1 (proj2 (quick_denoise_early env' clip ref cmode sigma kwargs)) Hmm Hb).
      reflexivity. }
  destruct (good_family_format clip Hb) as (f & Hf & Hg).
  destruct cmode as [|z|q|s].
  1-3: unfold quick_denoise; rewrite Hm, Hmm, Hb; reflexivity.
  rewrite (quick_denoise_dispatch env clip f ref s sigma kwargs Hm Hf Hg),
          (quick_denoise_dispatch env' clip f ref s sigma kwargs Hmm Hf Hg).
  unfold dispatch_table. specialize (Hsmd s eq_refl).
  destruct (documented_family s) as [[| | |]|]; try reflexivity.
  destruct Hsmd. reflexivity.
Qed.

Lemma quick_denoise_havsfunc_frame_witness :
  (has_mvsfunc env_all = has_mvsfunc env_no_havsfunc /\
   documented_family "dft" <> Some SMD) /\
  quick_denoise env_all yuv8 None (PStr "dft") (PInt 2) {["sbsize" := PInt 16]}
  = quick_denoise env_no_havsfunc yuv8 None (PStr "dft") (PInt 2) {["sbsize" := PInt 16]}.
Proof.
  split; [split; [reflexivity | discriminate]|].
  apply (quick_denoise_havsfunc_frame env_all env_no_havsfunc yuv8 None
           (PStr "dft") (PInt 2) {["sbsize" := PInt 16]}).
  - reflexivity.
  - intros s [= <-]. discriminate.
Defined.

(** X6: once the entry checks have passed, the SMDegrain mode without
    havsfunc fails with the dependency error of havsfunc, whatever the
    configuration map holds. *)
Theorem quick_denoise_smd_requires_havsfunc (env : Env) (clip : VideoNode)
    (f : VideoFormat) (ref : option node) (s : string) (sigma : pyval)
    (kwargs : gmap string pyval) :
  has_mvsfunc env = true ->
  format clip = Some f ->
  In (color_family f) [YUV; YCOCG; RGB] ->
  documented_family s = Some SMD ->
  has_havsfunc env = false ->
  quick_denoise env clip ref (PStr s) sigma kwargs
  = Err (ModuleNotFoundError msg_havsfunc).
Proof.
  intros Hm Hf Hin HF Hh.
  assert (Hg : bad_family (Some f) = false) by (apply good_family_iff; eauto).
  rewrite (quick_denoise_dispatch env clip f ref s sigma kwargs Hm Hf Hg).
  unfold dispatch_table. rewrite HF, Hh. reflexivity.
Qed.

Lemma quick_denoise_smd_requires_havsfunc_witness :
  (has_mvsfunc env_no_havsfunc = true /\ has_havsfunc env_no_havsfunc = false /\
   documented_family "SMDegrain" = Some SMD) /\
  quick_denoise env_no_havsfunc yuv8 None (PStr "SMDegrain") (PInt 2)
    {["prefilter" := PInt 1]}
  = Err (ModuleNotFoundError msg_havsfunc).
Proof.
  split; [repeat split|].
  apply (quick_denoise_smd_requires_havsfunc env_no_havsfunc yuv8
           (mk_format YUV 8)
           None "SMDegrain" (PInt 2) {["prefilter" := PInt 1]});
    first [reflexivity | left; reflexivity].
Defined.

(** X7: [sigma] and [ref] reach the luma plane only: changing them changes
    neither whether the call fails, nor the error, nor the two chroma planes
    of the result. *)
Theorem quick_denoise_luma_frame (env : Env) (clip : VideoNode)
    (ref ref' : option node) (cmode sigma sigma' : pyval)
    (kwargs : gmap string pyval) :
  match quick_denoise env clip ref cmode sigma kwargs,
        quick_denoise env clip ref' cmode sigma' kwargs with
  | Ok out, Ok out' =>
      chroma_planes out = chroma_planes out' /\ chroma_planes out <> None
  | Err e, Err e' => e = e'
  | _, _ => False
  end.
Proof.
  destruct (has_mvsfunc env) eqn:Hm.
  2:{ rewrite !(proj1 (quick_denoise_early env clip _ cmode _ kwargs) Hm).
      reflexivity. }
  destruct (bad_family (format clip)) eqn:Hb.
  1:{ rewrite !(proj1 (proj2 (quick_denoise_early env clip _ cmode _ kwargs)) Hm Hb).
      reflexivity. }
  destruct (good_family_format clip Hb) as (f & Hf & Hg).
  destruct cmode as [|z|q|s].
  1-3: unfold quick_denoise; rewrite Hm, Hb; reflexivity.
  rewrite !(quick_denoise_dispatch env clip f _ s _ kwargs Hm Hf Hg).
  destruct (documented_family s) as [F|] eqn:HF.
  - rewrite !(dispatch_table_family _ _ _ _ _ _ F HF).
    destruct (branch_keywords F env kwargs) as [fixed|e]; [|reflexivity].
    cbn [bind]. unfold branch.
    destruct (call_kwargs fixed kwargs) as [args|e]; [|reflexivity].
    cbn. split; [reflexivity|discriminate].
  - unfold dispatch_table. rewrite HF. reflexivity.
Qed.

(** ** The derived DFT parameter *)

(** X8: in the DFT mode with an integer 'sbsize' = S of at least 1 and
    with 3 * S below 2^53, both chroma planes go to DFTTest with
    'sbsize' = S untouched and a 'sosize' that is three quarters of S
    rounded down, hence not negative and strictly below S. *)
Theorem quick_denoise_dft_sosize_bounds (env : Env) (clip : VideoNode)
    (f : VideoFormat) (ref : option node) (s : string) (sigma : pyval)
    (kwargs : gmap string pyval) (S : Z) :
  has_mvsfunc env = true ->
  format clip = Some f ->
  In (color_family f) [YUV; YCOCG; RGB] ->
  documented_family s = Some DFT ->
  kwargs !! "sbsize" = Some (PInt S) ->
  kwargs !! "sosize" = None ->
  (1 <= S)%Z ->
  (3 * S < 2 ^ 53)%Z ->
  exists out args so,
    quick_denoise env clip ref (PStr s) sigma kwargs = Ok out /\
    chroma_planes out
    = Some (DFTTest (Plane (Input clip) 1) args, DFTTest (Plane (Input clip) 2) args) /\
    args !! "sbsize" = Some (PInt S) /\
    args !! "sosize" = Some (PInt so) /\
    (0 <= so < S)%Z /\
    (4 * so <= 3 * S < 4 * so + 4)%Z.
Proof.
  intros Hm Hf Hin HF Hsb Hso HS Hbound.
  assert (Hg : bad_family (Some f) = false) by (apply good_family_iff; eauto).
  rewrite (quick_denoise_dispatch env clip f ref s sigma kwargs Hm Hf Hg).
  unfold dispatch_table. rewrite HF, Hsb.
  rewrite (sosize_exact S) by lia. cbn [bind].
  unfold branch. cbn [call_kwargs]. rewrite Hso. cbn [bind].
  eexists _, _, (Z.quot (3 * S) 4).
  split; [reflexivity|]. split; [reflexivity|].
  split; [rewrite lookup_insert_ne by discriminate; exact Hsb|].
  split; [apply lookup_insert_eq|].
  apply quot_three_quarters, HS.
Qed.

Lemma quick_denoise_dft_sosize_bounds_witness :
  exists out args so,
    quick_denoise env_all yuv8 None (PStr "dfttest") (PInt 2) {["sbsize" := PInt 17]}
      = Ok out /\
    chroma_planes out
    = Some (DFTTest (Plane (Input yuv8) 1) args, DFTTest (Plane (Input yuv8) 2) args) /\
    args !! "sbsize" = Some (PInt 17) /\
    args !! "sosize" = Some (PInt so) /\
    (0 <= so < 17)%Z /\
    (4 * so <= 3 * 17 < 4 * so + 4)%Z.
Proof.
  apply (quick_denoise_dft_sosize_bounds env_all yuv8
           (mk_format YUV 8)
           None "dfttest" (PInt 2) {["sbsize" := PInt 17]} 17%Z);
    first [reflexivity | left; reflexivity | lia].
Defined.

(** ** The unknown mode *)

(** X17: [quick_denoise] fails with UnknownModeError exactly when mvsfunc
    imports, the clip is YUV, YCOCG or RGB, and the mode is a string that,
    compared without regard to case, is none of the eight documented
    aliases. *)
Theorem quick_denoise_unknown_mode (env : Env) (clip : VideoNode)
    (ref : option node) (cmode sigma : pyval) (kwargs : gmap string pyval) :
  quick_denoise env clip ref cmode sigma kwargs = Err UnknownModeError <->
  has_mvsfunc env = true /\
  (exists f, format clip = Some f /\ In (color_family f) [YUV; YCOCG; RGB]) /\
  exists s, cmode = PStr s /\ documented_family s = None.
Proof.
  split.
  - intros H.
    destruct (has_mvsfunc env) eqn:Hm.
    2:{ rewrite (proj1 (quick_denoise_early env clip ref cmode sigma kwargs) Hm) in H.
        discriminate H. }
    destruct (bad_family (format clip)) eqn:Hb.
    1:{ rewrite (proj1 (proj2 (quick_denoise_early env clip ref cmode sigma kwargs))
                   Hm Hb) in H.
        vm_compute in H. discriminate H. }
    split; [reflexivity|]. split; [apply good_family_iff; exact Hb|].
    destruct (good_family_format clip Hb) as (f & Hf & Hg).
    destruct cmode as [|z|q|s].
    1-3: match type of H with
         | quick_denoise _ _ _ ?cm _ _ = _ =>
             destruct (proj2 (proj2 (quick_denoise_early env clip ref cm sigma kwargs))
                         Hm Hb ltac:(intros s; discriminate)) as [m Hq]
         end; rewrite Hq in H; discriminate H.
    exists s. split; [reflexivity|].
    rewrite (quick_denoise_dispatch env clip f ref s sigma kwargs Hm Hf Hg) in H.
    pose proof (dispatch_table_outcome env (Input clip) ref s sigma kwargs) as Ho.
    destruct (documented_family s) as [F|]; [exfalso|reflexivity].
    rewrite H in Ho.
    destruct Ho as [[w Hw]|[[m Hm']|[Hn|[(_ & _ & He)|(_ & _ & He)]]]].
    + discriminate Hw.
    + discriminate Hm'.
    + symmetry in Hn. destruct (nan_not_unknown_mode Hn).
    + symmetry in He. destruct (missing_parameter_not_unknown_mode He).
    + discriminate He.
  - intros (Hm & Hfam & s & -> & HF).
    apply good_family_iff in Hfam.
    destruct (good_family_format clip Hfam) as (f & Hf & Hg).
    rewrite (quick_denoise_dispatch env clip f ref s sigma kwargs Hm Hf Hg).
    unfold dispatch_table. rewrite HF. reflexivity.
Qed.

(** ** Entry and parameters of [detail_mask] *)

(** X9: [detail_mask] looks for debandshit first and for a determinate
    format second; a clip without a luma plane, given without pre-blur, is
    then refused by [get_y]; and a call that returns had debandshit and a
    clip of determinate format of family YUV, YCOCG or GRAY. *)
Theorem detail_mask_outcome (env : Env) (clip : VideoNode) (sigma : pyval)
    (rad radc : Z) (brz_a brz_b : pyval) :
  (has_debandshit env = false ->
   detail_mask env clip sigma rad radc brz_a brz_b
   = Err (ModuleNotFoundError msg_debandshit)) /\
  (has_debandshit env = true -> format clip = None ->
   detail_mask env clip sigma rad radc brz_a brz_b
   = Err (ValueError msg_variable)) /\
  (has_debandshit env = true -> truthy sigma = false ->
   forall f, format clip = Some f -> ~ In (color_family f) [YUV; YCOCG; GRAY] ->
   detail_mask env clip sigma rad radc brz_a brz_b
   = Err (ValueError msg_luma)) /\
  (forall out,
     detail_mask env clip sigma rad radc brz_a brz_b = Ok out ->
     has_debandshit env = true /\
     exists f, format clip = Some f /\ In (color_family f) [YUV; YCOCG; GRAY]).
Proof.
  split; [|split; [|split]].
  - unfold detail_mask. intros ->. reflexivity.
  - unfold detail_mask. intros -> ->. reflexivity.
  - intros Hd Hs f Hf Hfam. unfold detail_mask. rewrite Hd, Hf.
    cbn [import_or bind].
    destruct (rescale_thresholds f brz_a brz_b) as [ta tb].
    unfold mask_a. rewrite (get_y_den_a clip f sigma Hf).
    destruct (has_luma f) eqn:Hl.
    { destruct Hfam. apply has_luma_iff. exact Hl. }
    destruct (bits_per_sample f <? 32)%Z; reflexivity.
  - intros out H.
    destruct (detail_mask_shape _ _ _ _ _ _ _ _ H) as (Hd & f & Hf & Hl & _).
    split; [exact Hd|]. exists f. split; [exact Hf|].
    apply has_luma_iff. exact Hl.
Qed.

Lemma detail_mask_outcome_witness :
  detail_mask env_no_debandshit variable_clip PNone 3 2 (PFloat 0.005%Q) (PFloat 0.005%Q)
    = Err (ModuleNotFoundError msg_debandshit) /\
  detail_mask env_all variable_clip PNone 3 2 (PFloat 0.005%Q) (PFloat 0.005%Q)
    = Err (ValueError msg_variable) /\
  detail_mask env_all rgb8 PNone 3 2 (PFloat 0.005%Q) (PFloat 0.005%Q)
    = Err (ValueError msg_luma).
Proof.
  split; [|split].
  - apply (proj1 (detail_mask_outcome env_no_debandshit variable_clip PNone 3 2
                    (PFloat 0.005%Q) (PFloat 0.005%Q))).
    reflexivity.
  - apply (proj1 (proj2 (detail_mask_outcome env_all variable_clip PNone 3 2
                           (PFloat 0.005%Q) (PFloat 0.005%Q)))); reflexivity.
  - apply (proj1 (proj2 (proj2 (detail_mask_outcome env_all rgb8 PNone 3 2
                                  (PFloat 0.005%Q) (PFloat 0.005%Q))))
             eq_refl eq_refl (mk_format RGB 8) eq_refl).
    cbn. intros [H|[H|[H|[]]]]; discriminate H.
Defined.

(** X10: every falsy [sigma] (None, 0, 0.0, the empty string) gives the
    outcome of the call without [sigma]. *)
Theorem detail_mask_falsy_sigma (env : Env) (clip : VideoNode) (sigma : pyval)
    (rad radc : Z) (brz_a brz_b : pyval) :
  truthy sigma = false ->
  detail_mask env clip sigma rad radc brz_a brz_b
  = detail_mask env clip PNone rad radc brz_a brz_b.
Proof.
  intros Hs. unfold detail_mask, den_a, den_b. rewrite Hs. reflexivity.
Qed.

Lemma detail_mask_falsy_sigma_witness :
  truthy (PInt 0) = false /\
  detail_mask env_all yuv8 (PInt 0) 3 2 (PFloat 0.005%Q) (PFloat 0.005%Q)
  = detail_mask env_all yuv8 PNone 3 2 (PFloat 0.005%Q) (PFloat 0.005%Q).
Proof.
  split; [reflexivity|].
  apply (detail_mask_falsy_sigma env_all yuv8 (PInt 0) 3 2
           (PFloat 0.005%Q) (PFloat 0.005%Q)).
  reflexivity.
Defined.

(** X11: the two detectors share the clip and [sigma] and nothing else: of
    two calls on the same clip and [sigma] that both return, the outputs of
    detector B agree as soon as [brz_b] does, and the outputs of detector A
    as soon as [rad], [radc] and [brz_a] do; in particular each threshold
    is rescaled without regard to the other. *)
Theorem detail_mask_parameter_frame (env : Env) (clip : VideoNode)
    (sigma : pyval)
    (rad radc rad' radc' : Z) (brz_a brz_b brz_a' brz_b' : pyval)
    (out out' : node) :
  detail_mask env clip sigma rad radc brz_a brz_b = Ok out ->
  detail_mask env clip sigma rad' radc' brz_a' brz_b' = Ok out' ->
  exists a b a' b',
    detectors out = Some (a, b) /\
    detectors out' = Some (a', b') /\
    (brz_b = brz_b' -> b = b') /\
    (rad = rad' -> radc = radc' -> brz_a = brz_a' -> a = a').
Proof.
  intros H H'.
  destruct (detail_mask_shape _ _ _ _ _ _ _ _ H) as (_ & f & Hf & _ & Hout).
  destruct (detail_mask_shape _ _ _ _ _ _ _ _ H') as (_ & f' & Hf' & _ & Hout').
  rewrite Hf in Hf'. injection Hf' as <-.
  cbv zeta in Hout, Hout'. subst out out'.
  eexists _, _, _, _.
  split; [reflexivity|]. split; [reflexivity|].
  unfold rescale_thresholds.
  split.
  - intros <-. destruct (negb (get_depth f =? 32)%Z); reflexivity.
  - intros <- <- <-. destruct (negb (get_depth f =? 32)%Z); reflexivity.
Qed.

Lemma detail_mask_parameter_frame_witness :
  exists out out' a b a' b',
    detail_mask env_all yuv8 PNone 3 2 (PFloat 0.005%Q) (PFloat 0.01%Q) = Ok out /\
    detail_mask env_all yuv8 PNone 5 4 (PInt 2) (PFloat 0.01%Q) = Ok out' /\
    detectors out = Some (a, b) /\
    detectors out' = Some (a', b') /\
    b = b'.
Proof.
  destruct (detail_mask env_all yuv8 PNone 3 2 (PFloat 0.005%Q) (PFloat 0.01%Q))
    as [out|e] eqn:H; [|vm_compute in H; discriminate H].
  destruct (detail_mask env_all yuv8 PNone 5 4 (PInt 2) (PFloat 0.01%Q))
    as [out'|e] eqn:H'; [|vm_compute in H'; discriminate H'].
  destruct (detail_mask_parameter_frame env_all yuv8 PNone
              3 2 5 4 (PFloat 0.005%Q) (PFloat 0.01%Q) (PInt 2) (PFloat 0.01%Q)
              out out' H H')
    as (a & b & a' & b' & H3 & H4 & Hb & _).
  exists out, out', a, b, a', b'. repeat split; try assumption.
  apply Hb. reflexivity.
Defined.

(** X18: the thresholds that reach the two binarisations of a call that
    returns.  On a clip whose depth is not 32, a float threshold is the
    value rescaled from 32 bits to the depth of the clip and any other
    threshold is the value given; on a clip of depth 32 every threshold,
    integer or not, is the value given. *)
Theorem detail_mask_binarize_thresholds (env : Env) (clip : VideoNode)
    (f : VideoFormat) (sigma : pyval) (rad radc : Z) (brz_a brz_b : pyval)
    (out : node) :
  format clip = Some f ->
  detail_mask env clip sigma rad radc brz_a brz_b = Ok out ->
  exists a b ta tb,
    detectors out = Some (a, b) /\
    binarize_threshold a = Some ta /\
    binarize_threshold b = Some tb /\
    (bits_per_sample f <> 32%Z ->
       ta = (if is_float brz_a
             then ScaleValue brz_a 32 (bits_per_sample f) else Thr brz_a) /\
       tb = (if is_float brz_b
             then ScaleValue brz_b 32 (bits_per_sample f) else Thr brz_b)) /\
    (bits_per_sample f = 32%Z -> ta = Thr brz_a /\ tb = Thr brz_b).
Proof.
  intros Hf H.
  destruct (detail_mask_shape _ _ _ _ _ _ _ _ H) as (_ & f' & Hf' & _ & Hout).
  rewrite Hf in Hf'. injection Hf' as <-. cbv zeta in Hout. subst out.
  eexists _, _, _, _.
  split; [reflexivity|]. split; [reflexivity|]. split; [reflexivity|].
  unfold rescale_thresholds, scale_value, get_depth.
  split; intros Hbits.
  - replace (bits_per_sample f =? 32)%Z with false
      by (symmetry; apply Z.eqb_neq; exact Hbits).
    replace (32 =? bits_per_sample f)%Z with false
      by (symmetry; apply Z.eqb_neq; lia).
    cbn [negb fst snd]. split; reflexivity.
  - rewrite Hbits. cbn [Z.eqb Pos.eqb negb fst snd].
    destruct (is_int brz_a), (is_int brz_b); split; reflexivity.
Qed.

Lemma detail_mask_binarize_thresholds_witness :
  (exists out a b,
     detail_mask env_all yuv8 PNone 3 2 (PFloat 0.005%Q) (PInt 1) = Ok out /\
     detectors out = Some (a, b) /\
     binarize_threshold a = Some (ScaleValue (PFloat 0.005%Q) 32 8) /\
     binarize_threshold b = Some (Thr (PInt 1))) /\
  (exists out a b,
     detail_mask env_all yuv32 PNone 3 2 (PFloat 0.005%Q) (PInt 1) = Ok out /\
     detectors out = Some (a, b) /\
     binarize_threshold a = Some (Thr (PFloat 0.005%Q)) /\
     binarize_threshold b = Some (Thr (PInt 1))).
Proof.
  split.
  - destruct (detail_mask env_all yuv8 PNone 3 2 (PFloat 0.005%Q) (PInt 1))
      as [out|e] eqn:H; [|vm_compute in H; discriminate H].
    destruct (detail_mask_binarize_thresholds env_all yuv8 (mk_format YUV 8)
                PNone 3 2 (PFloat 0.005%Q) (PInt 1) out eq_refl H)
      as (a & b & ta & tb & Hab & Ha & Hb & Hne & _).
    destruct (Hne ltac:(discriminate)) as [-> ->].
    exists out, a, b. repeat split; assumption.
  - destruct (detail_mask env_all yuv32 PNone 3 2 (PFloat 0.005%Q) (PInt 1))
      as [out|e] eqn:H; [|vm_compute in H; discriminate H].
    destruct (detail_mask_binarize_thresholds env_all yuv32 (mk_format YUV 32)
                PNone 3 2 (PFloat 0.005%Q) (PInt 1) out eq_refl H)
      as (a & b & ta & tb & Hab & Ha & Hb & _ & Heq).
    destruct (Heq eq_refl) as [-> ->].
    exists out, a, b. repeat split; assumption.
Defined.

(** ** More on the merge step *)

(** X12: the mask that [detail_mask] hands to the smoothing passes, on any
    two detector masks of the same size whose samples lie in the range of
    the format, binarised or not, has that size, lies again within the
    range, and holds the larger of the two samples at every pixel: the
    clamp of the store never bites. *)
Theorem merge_in_range (env : Env) (clip : VideoNode) (sigma : pyval)
    (rad radc : Z) (brz_a brz_b : pyval) (out : node) :
  detail_mask env clip sigma rad radc brz_a brz_b = Ok out ->
  exists a b,
    detectors out = Some (a, b) /\
    merged out = Some (merge a b) /\
    forall (peak : Z) (sem : node -> option (list Z)) (A B : list Z),
      sem a = Some A -> sem b = Some B ->
      in_range peak A ->
      in_range peak B ->
      length A = length B ->
      exists M,
        denote peak sem (merge a b) = Some M /\
        length M = length A /\
        in_range peak M /\
        forall (p : nat) (x y : Z),
          A !! p = Some x -> B !! p = Some y -> M !! p = Some (Z.max x y).
Proof.
  intros H. destruct (detail_mask_merged _ _ _ _ _ _ _ _ H) as (a & b & Hab & Hm).
  exists a, b. split; [exact Hab|]. split; [exact Hm|].
  intros peak sem A B Ha Hb HA HB Hlen.
  rewrite (denote_merge peak sem a b A B Ha Hb).
  apply expr_max_in_range; assumption.
Qed.

Lemma merge_in_range_witness :
  exists out m M,
    detail_mask env_all yuv8 PNone 3 2 (PFloat 0.005%Q) (PFloat 0.005%Q) = Ok out /\
    merged out = Some m /\
    denote 255 (two_masks [3; 200; 17]%Z [90; 4; 17]%Z) m = Some M /\
    in_range 255 M /\
    M !! 0%nat = Some 90%Z /\ M !! 1%nat = Some 200%Z /\ M !! 2%nat = Some 17%Z.
Proof.
  destruct (detail_mask env_all yuv8 PNone 3 2 (PFloat 0.005%Q) (PFloat 0.005%Q))
    as [out|e] eqn:H; [|vm_compute in H; discriminate H].
  pose proof (merge_in_range env_all yuv8 PNone 3 2
                (PFloat 0.005%Q) (PFloat 0.005%Q) out H) as T.
  vm_compute in H. injection H as <-.
  destruct T as (a & b & Hab & Hm & Hpx).
  cbn in Hab. injection Hab as <- <-.
  destruct (Hpx 255%Z (two_masks [3; 200; 17]%Z [90; 4; 17]%Z)
              [3; 200; 17]%Z [90; 4; 17]%Z eq_refl eq_refl)
    as (M & HM & _ & Hr & HpxM).
  - unfold in_range. repeat (constructor; [lia|]). constructor.
  - unfold in_range. repeat (constructor; [lia|]). constructor.
  - reflexivity.
  - eexists _, _, M. split; [reflexivity|]. split; [exact Hm|].
    split; [exact HM|]. split; [exact Hr|].
    split; [exact (HpxM 0%nat 3%Z 90%Z eq_refl eq_refl)|].
    split; [exact (HpxM 1%nat 200%Z 4%Z eq_refl eq_refl)|].
    exact (HpxM 2%nat 17%Z 17%Z eq_refl eq_refl).
Defined.

(** X13: the merge step of [detail_mask] does not depend on the order in
    which line 174 lists the two detectors: merging them the other way
    round gives the same samples, for any samples the detectors have (and
    masks of different sizes are refused either way). *)
Theorem merge_commutative (env : Env) (clip : VideoNode) (sigma : pyval)
    (rad radc : Z) (brz_a brz_b : pyval) (out : node) :
  detail_mask env clip sigma rad radc brz_a brz_b = Ok out ->
  exists a b,
    detectors out = Some (a, b) /\
    merged out = Some (merge a b) /\
    forall (peak : Z) (sem : node -> option (list Z)),
      denote peak sem (merge a b) = denote peak sem (merge b a).
Proof.
  intros H. destruct (detail_mask_merged _ _ _ _ _ _ _ _ H) as (a & b & Hab & Hm).
  exists a, b. split; [exact Hab|]. split; [exact Hm|].
  intros peak sem. apply denote_merge_comm.
Qed.

Lemma merge_commutative_witness :
  exists out a b,
    detail_mask env_all yuv8 PNone 3 2 (PFloat 0.005%Q) (PFloat 0.005%Q) = Ok out /\
    detectors out = Some (a, b) /\
    denote 255 (two_masks [0; 255; 9]%Z [7; 0; 255]%Z) (merge a b)
    = denote 255 (two_masks [0; 255; 9]%Z [7; 0; 255]%Z) (merge b a) /\
    denote 255 (two_masks [0; 255; 9]%Z [7; 0; 255]%Z) (merge a b)
    = Some [7; 255; 255]%Z.
Proof.
  destruct (detail_mask env_all yuv8 PNone 3 2 (PFloat 0.005%Q) (PFloat 0.005%Q))
    as [out|e] eqn:H; [|vm_compute in H; discriminate H].
  pose proof (merge_commutative env_all yuv8 PNone 3 2
                (PFloat 0.005%Q) (PFloat 0.005%Q) out H) as T.
  vm_compute in H. injection H as <-.
  destruct T as (a & b & Hab & _ & Hcomm).
  cbn in Hab. injection Hab as <- <-.
  eexists _, _, _. split; [reflexivity|]. split; [reflexivity|].
  split; [apply Hcomm | reflexivity].
Defined.

(** X14: in the mask that [detail_mask] hands to the smoothing passes, the
    merge of two binarised detector masks is binarised, and a pixel of it
    is set exactly where a pixel of either mask is set. *)
Theorem merge_binarized_or (env : Env) (clip : VideoNode) (sigma : pyval)
    (rad radc : Z) (brz_a brz_b : pyval) (out : node) :
  detail_mask env clip sigma rad radc brz_a brz_b = Ok out ->
  exists a b,
    detectors out = Some (a, b) /\
    merged out = Some (merge a b) /\
    forall (peak : Z) (sem : node -> option (list Z)) (A B : list Z),
      sem a = Some A -> sem b = Some B ->
      (0 < peak)%Z ->
      binarized peak A ->
      binarized peak B ->
      length A = length B ->
      exists M,
        denote peak sem (merge a b) = Some M /\
        binarized peak M /\
        forall p : nat,
          M !! p = Some peak <-> (A !! p = Some peak \/ B !! p = Some peak).
Proof.
  intros H. destruct (detail_mask_merged _ _ _ _ _ _ _ _ H) as (a & b & Hab & Hm).
  exists a, b. split; [exact Hab|]. split; [exact Hm|].
  intros peak sem A B Ha Hb Hpeak HA HB Hlen.
  rewrite (denote_merge peak sem a b A B Ha Hb).
  apply expr_max_binarized; assumption.
Qed.

Lemma merge_binarized_or_witness :
  exists out m M,
    detail_mask env_all yuv8 PNone 3 2 (PFloat 0.005%Q) (PFloat 0.005%Q) = Ok out /\
    merged out = Some m /\
    denote 255 (two_masks [0; 255; 0; 255]%Z [0; 0; 255; 255]%Z) m = Some M /\
    binarized 255 M /\
    (M !! 2%nat = Some 255%Z <->
     ([0; 255; 0; 255]%Z !! 2%nat = Some 255%Z \/
      [0; 0; 255; 255]%Z !! 2%nat = Some 255%Z)).
Proof.
  destruct (detail_mask env_all yuv8 PNone 3 2 (PFloat 0.005%Q) (PFloat 0.005%Q))
    as [out|e] eqn:H; [|vm_compute in H; discriminate H].
  pose proof (merge_binarized_or env_all yuv8 PNone 3 2
                (PFloat 0.005%Q) (PFloat 0.005%Q) out H) as T.
  vm_compute in H. injection H as <-.
  destruct T as (a & b & Hab & Hm & Hor).
  cbn in Hab. injection Hab as <- <-.
  destruct (Hor 255%Z (two_masks [0; 255; 0; 255]%Z [0; 0; 255; 255]%Z)
              [0; 255; 0; 255]%Z [0; 0; 255; 255]%Z eq_refl eq_refl)
    as (M & HM & Hbin & HorM).
  - lia.
  - unfold binarized. repeat (constructor; [lia|]). constructor.
  - unfold binarized. repeat (constructor; [lia|]). constructor.
  - reflexivity.
  - eexists _, _, M. split; [reflexivity|]. split; [exact Hm|].
    split; [exact HM|]. split; [exact Hbin|]. exact (HorM 2%nat).
Defined.

(** ** Modes that are not strings, and the family of the result *)

(** X15: once the entry checks have passed, a mode that is not a string (an
    integer, a float, None) stops the call at [cmode.lower()] with an
    AttributeError, before any plane is filtered; the integers in the
    membership tests are never compared. *)
Theorem quick_denoise_non_string_mode (env : Env) (clip : VideoNode)
    (f : VideoFormat) (ref : option node) (cmode sigma : pyval)
    (kwargs : gmap string pyval) :
  has_mvsfunc env = true ->
  format clip = Some f ->
  In (color_family f) [YUV; YCOCG; RGB] ->
  (forall s, cmode <> PStr s) ->
  exists m, quick_denoise env clip ref cmode sigma kwargs = Err (AttributeError m).
Proof.
  intros Hm Hf Hin Hs.
  apply (proj2 (proj2 (quick_denoise_early env clip ref cmode sigma kwargs)) Hm);
    [|exact Hs].
  rewrite Hf. apply good_family_iff. eauto.
Qed.

Lemma quick_denoise_non_string_mode_witness :
  has_mvsfunc env_all = true /\
  exists m,
    quick_denoise env_all yuv8 None (PInt 3) (PInt 2) {["sbsize" := PInt 16]}
    = Err (AttributeError m).
Proof.
  split; [reflexivity|].
  apply (quick_denoise_non_string_mode env_all yuv8
           (mk_format YUV 8)
           None (PInt 3) (PInt 2) {["sbsize" := PInt 16]}).
  - reflexivity.
  - reflexivity.
  - left. reflexivity.
  - intros s. discriminate.
Defined.

Lemma quick_denoise_family_fixed_witness :
  exists out out',
    quick_denoise env_all yuv8 None (PStr "knlm") (PInt 2) ∅ = Ok out /\
    quick_denoise env_all rgb8 None (PStr "tnlm") (PInt 3) ∅ = Ok out' /\
    node_color_family (Input yuv8) <> node_color_family (Input rgb8) /\
    node_color_family out = node_color_family out'.
Proof.
  destruct (quick_denoise env_all yuv8 None (PStr "knlm") (PInt 2) ∅)
    as [out|e] eqn:H; [|vm_compute in H; discriminate H].
  destruct (quick_denoise env_all rgb8 None (PStr "tnlm") (PInt 3) ∅)
    as [out'|e] eqn:H'; [|vm_compute in H'; discriminate H'].
  exists out, out'. split; [reflexivity|]. split; [reflexivity|].
  split; [discriminate|].
  exact (quick_denoise_family_fixed env_all env_all yuv8 rgb8 None None
           (PStr "knlm") (PStr "tnlm") (PInt 2) (PInt 3) ∅ ∅ out out' H H').
Defined.
